(** * OpenTrust Protocol conformance harnesses

    A shallow embedding of the two validation harnesses of the
    OpenTrust Protocol specification repository,

      - [tools/test-runner/validate_vectors.py]  (class [TestVectorValidator]),
      - [tools/validator/check_conformance.py]   (class [ConformanceValidator]),

    together with the properties of their verdict, counting and scoring
    logic.

    Modelling conventions.
      - Python numbers are modelled as Python has them: an [int] is an
        unbounded integer ([Z]) and a [float] is an IEEE 754 binary64 number
        (a primitive float).  A decimal literal such as [0.8] denotes the
        binary64 number nearest to 8/10, and every float addition rounds to
        nearest, ties to even.  Comparison and addition follow the rules of
        CPython for each pair of operand types.
      - The score, the quotient of two counters, is the one number kept as
        an exact rational.  The exit status that binary64 arithmetic gives is
        defined beside it and shown to be the same for every total up to
        200.
      - A Python exception is a class tag with its [str()] text.  Only
        instances of [Exception] are modelled, so [except Exception] catches
        every modelled exception.
      - The vectors of a fixture file have the types of the schema: a list of
        objects with ['name'], ['input'] and ['expected_valid'].
      - The SDK under test is arbitrary code: its callables are functions
        that thread an abstract SDK state and either return or raise.  The
        two harnesses reach the fusion operators under different names
        ([sdk_module.fuse.X] and [sdk_module.X]), which are kept apart.
      - Mutable harness state ([self.results], the console) and exceptions are
        threaded by a small state-and-exception monad.
      - [validate_vectors.py] stores every verdict it prints in
        [results[..]['details']], so its [print] calls are not modelled.  In
        [check_conformance.py] the console is the only place where a verdict
        appears: each verdict line is modelled by its glyph, the probe it
        names and the rest of the line; banner lines are not modelled. *)

From Stdlib Require Import ZArith QArith String List Bool Lia.
From Stdlib Require Import Floats.PrimFloat Floats.FloatOps Floats.SpecFloat.
From stdpp Require Import gmap strings.
Import ListNotations.

#[local] Open Scope string_scope.
#[local] Set Warnings "-inexact-float".

(** ** Python values, exceptions and operators *)

Module Py.

(** Exception classes the harnesses raise or discriminate on.
    [OtherException] stands for any class that derives from [Exception]
    but neither from [AttributeError] nor from [TypeError]
    ([ValueError], [RuntimeError], a class of the SDK, ...). *)
Inductive exc_class : Type :=
| AttributeError
| TypeError
| KeyError
| UnboundLocalError
| JSONDecodeError
| OtherException (class_name : string).

Record exn : Type := mk_exn { exc_type : exc_class; exc_msg : string }.

(** [str(e)] *)
Definition str (e : exn) : string := exc_msg e.

(** [isinstance(e, (AttributeError, TypeError))] *)
Definition is_AttributeError_or_TypeError (e : exn) : bool :=
  match exc_type e with
  | AttributeError | TypeError => true
  | _ => false
  end.

(** Outcome of evaluating an expression: a value, or a raised exception. *)
Inductive result (A : Type) : Type :=
| Ok (a : A)
| Raise (e : exn).
Arguments Ok {A} a.
Arguments Raise {A} e.

(** Evaluation order inside an expression: [r] first, then [k] on its
    value unless [r] raised. *)
Definition rbind {A B} (r : result A) (k : A -> result B) : result B :=
  match r with
  | Ok a => k a
  | Raise e => Raise e
  end.

Notation "'let?' x ':=' r 'in' k" := (rbind r (fun x => k))
  (at level 10, x name, r at level 100, k at level 200, only parsing).

(** Values an attribute of an SDK object may hold: an [int], a [float], or
    something that is not a number (represented by [None]). *)
Inductive pyval : Type :=
| PyInt (z : Z)
| PyFloat (f : float)
| PyNone.

Definition unsupported (op : string) : exn :=
  mk_exn TypeError ("unsupported operand type(s) for " ++ op).

(** The binary64 number nearest to an integer, ties to even; infinite when
    the integer is out of range. *)
Definition float_of_Z (z : Z) : float :=
  SF2Prim (binary_normalize prec emax z 0 false).

(** The conversion of an [int] operand of a float operation: an [int] that
    is out of the range of [float] raises [OverflowError]. *)
Definition int_to_float (z : Z) : result float :=
  let f := float_of_Z z in
  if is_infinity f
  then Raise (mk_exn (OtherException "OverflowError") "int too large to convert to float")
  else Ok f.

(** The exact order between an [int] and a [float]; [None] when the float
    is a NaN. *)
Definition compare_int_float (z : Z) (f : float) : option comparison :=
  match Prim2SF f with
  | S754_nan => None
  | S754_infinity negative => Some (if negative then Gt else Lt)
  | S754_zero _ => Some (z ?= 0)%Z
  | S754_finite negative m e =>
      let v := if negative then Z.neg m else Z.pos m in
      Some (if (0 <=? e)%Z then (z ?= v * 2 ^ e)%Z else (z * 2 ^ (- e) ?= v)%Z)
  end.

(** CPython compares an [int] with a [float] exactly: an [int] of at most
    48 bits is converted to a [float], which loses nothing, and the two
    floats are compared; a longer [int] is compared with the exact value of
    the float. *)
Definition fits_48_bits (z : Z) : bool := (Z.abs z <? 2 ^ 48)%Z.

Definition int_le_float (z : Z) (f : float) : bool :=
  if fits_48_bits z then (float_of_Z z <=? f)%float
  else match compare_int_float z f with
       | Some Lt | Some Eq => true
       | _ => false
       end.

Definition float_le_int (f : float) (z : Z) : bool :=
  if fits_48_bits z then (f <=? float_of_Z z)%float
  else match compare_int_float z f with
       | Some Gt | Some Eq => true
       | _ => false
       end.

Definition int_eq_float (z : Z) (f : float) : bool :=
  if fits_48_bits z then (float_of_Z z =? f)%float
  else match compare_int_float z f with
       | Some Eq => true
       | _ => false
       end.

(** [a <= b]: exact on two [int]s, the IEEE comparison on two [float]s
    (false as soon as one is a NaN). *)
Definition py_le (a b : pyval) : result bool :=
  match a, b with
  | PyInt x, PyInt y => Ok (x <=? y)%Z
  | PyFloat x, PyFloat y => Ok (x <=? y)%float
  | PyInt x, PyFloat y => Ok (int_le_float x y)
  | PyFloat x, PyInt y => Ok (float_le_int x y)
  | _, _ => Raise (unsupported "<=")
  end.

(** [a + b]: exact on two [int]s; on two [float]s the binary64 sum, rounded
    to nearest; an [int] added to a [float] is converted first. *)
Definition py_add (a b : pyval) : result pyval :=
  match a, b with
  | PyInt x, PyInt y => Ok (PyInt (x + y))
  | PyFloat x, PyFloat y => Ok (PyFloat (x + y))
  | PyInt x, PyFloat y => let? x' := int_to_float x in Ok (PyFloat (x' + y))
  | PyFloat x, PyInt y => let? y' := int_to_float y in Ok (PyFloat (x + y'))
  | _, _ => Raise (unsupported "+")
  end.

(** [a == b]: never raises; a number is different from [None]. *)
Definition py_eq (a b : pyval) : bool :=
  match a, b with
  | PyInt x, PyInt y => (x =? y)%Z
  | PyFloat x, PyFloat y => (x =? y)%float
  | PyInt x, PyFloat y => int_eq_float x y
  | PyFloat x, PyInt y => int_eq_float y x
  | PyNone, PyNone => true
  | _, _ => false
  end.

(** [bool(s)] for a string: the empty string is falsy. *)
Definition truthy (s : string) : bool :=
  match s with
  | EmptyString => false
  | String _ _ => true
  end.

(** [needle in hay] for two strings: [needle] occurs as a contiguous
    substring of [hay]. *)
Fixpoint str_in (needle hay : string) : bool :=
  String.prefix needle hay ||
  match hay with
  | EmptyString => false
  | String _ hay' => str_in needle hay'
  end.

(** [a and b] on an expression that may raise: [b] is evaluated only when
    [a] is true. *)
Definition and_then (a : result bool) (b : result bool) : result bool :=
  let? x := a in if x then b else Ok false.

(** *** Statements: a state-and-exception monad

    A statement runs in a world [W] (everything it may mutate) and either
    completes with a value or raises; the world it leaves behind is kept in
    both cases, as Python keeps every assignment made before a [raise]. *)
Definition M (W A : Type) : Type := W -> result A * W.

Definition ret {W A} (a : A) : M W A := fun w => (Ok a, w).

Definition bind {W A B} (m : M W A) (k : A -> M W B) : M W B :=
  fun w =>
    match m w with
    | (Ok a, w') => k a w'
    | (Raise e, w') => (Raise e, w')
    end.

(** [s1 ;; s2] is stdpp's sequencing notation at this instance. *)
#[export] Instance M_ret W : MRet (M W) := @ret W.
#[export] Instance M_bind W : MBind (M W) := fun A B k m => bind m k.

Notation "'let*' x ':=' m 'in' k" := (bind m (fun x => k))
  (at level 10, x name, m at level 100, k at level 200, only parsing).

(** [raise e] *)
Definition raise {W A} (e : exn) : M W A := fun w => (Raise e, w).

(** An expression without side effect, evaluated as a statement. *)
Definition eval {W A} (r : result A) : M W A := fun w => (r, w).

(** An assignment to part of the world. *)
Definition modify {W} (f : W -> W) : M W unit := fun w => (Ok tt, f w).

(** [try: body  except Exception as e: handler e] *)
Definition try_except {W A} (body : M W A) (handler : exn -> M W A) : M W A :=
  fun w =>
    match body w with
    | (Ok a, w') => (Ok a, w')
    | (Raise e, w') => handler e w'
    end.

(** [try: body  except (C1, C2, ...): handler]: an exception that is not an
    instance of the listed classes keeps propagating. *)
Definition try_except_only {W A} (classes : exn -> bool)
    (body : M W A) (handler : exn -> M W A) : M W A :=
  fun w =>
    match body w with
    | (Ok a, w') => (Ok a, w')
    | (Raise e, w') => if classes e then handler e w' else (Raise e, w')
    end.

(** [for x in xs: body x] *)
Fixpoint for_each {W A} (xs : list A) (body : A -> M W unit) : M W unit :=
  match xs with
  | [] => ret tt
  | x :: xs' => body x ;; for_each xs' body
  end.

End Py.
Import Py.

(** ** Objects handed back by the SDK under test *)

(** The provenance chain of a judgment object, seen through the two
    operations the harness applies to it. *)
Record chain_obj : Type := mk_chain {
  (** [len(chain)] *)
  chain_len : result nat;
  (** [chain.append(entry)]: attribute lookup and call *)
  chain_append : result unit
}.

(** A judgment object, seen through its attribute reads.  A read either
    yields a value or raises (a missing attribute raises [AttributeError], a
    property may raise anything); reading the same attribute again gives the
    same outcome. *)
Record judgment : Type := mk_judgment {
  attr_T : result pyval;
  attr_I : result pyval;
  attr_F : result pyval;
  attr_provenance_chain : result chain_obj
}.

(** One entry of a [provenance_chain] argument. *)
Record provenance_entry : Type := mk_entry {
  source_id : string;
  timestamp : string
}.

(** The sub-module [sdk_module.fuse], through which [validate_vectors.py]
    reaches the fusion operators.  [St] is the SDK's own state.  Every use
    of [sdk_module.fuse.X(args)] has its arguments bound beforehand, so the
    two attribute lookups and the call are one step that returns or raises:
    an SDK without [fuse], or without [fuse.X], raises [AttributeError]
    there. *)
Module Fuse.

Record namespace (St : Type) : Type := mk_namespace {
  conflict_aware_weighted_average :
    list judgment -> list pyval -> St -> result judgment * St;
  optimistic_fusion : list judgment -> St -> result judgment * St;
  pessimistic_fusion : list judgment -> St -> result judgment * St
}.
Arguments mk_namespace {St} _ _ _.
Arguments conflict_aware_weighted_average {St} _ _ _ _.
Arguments optimistic_fusion {St} _ _ _.
Arguments pessimistic_fusion {St} _ _ _.

End Fuse.

(** The capability surface of an SDK module.

    [NeutrosophicJudgment]: the lookup of the class and its call, whose
    arguments are literals or fixture values, are one step that returns or
    raises.

    [fuse]: the operators as [validate_vectors.py] names them,
    [sdk_module.fuse.X].

    [conflict_aware_weighted_average], [optimistic_fusion],
    [pessimistic_fusion]: the operators as [check_conformance.py] names
    them, [sdk_module.X].  The lookup is kept apart from the call, because
    that harness evaluates an argument that may be unbound between the two:
    the field is the outcome of the lookup, a callable or the
    [AttributeError] of a missing attribute. *)
Record sdk_module (St : Type) : Type := mk_sdk {
  NeutrosophicJudgment :
    pyval -> pyval -> pyval -> list provenance_entry -> St -> result judgment * St;
  fuse : Fuse.namespace St;
  conflict_aware_weighted_average :
    result (list judgment -> list pyval -> St -> result judgment * St);
  optimistic_fusion : result (list judgment -> St -> result judgment * St);
  pessimistic_fusion : result (list judgment -> St -> result judgment * St)
}.
Arguments mk_sdk {St} _ _ _ _ _.
Arguments NeutrosophicJudgment {St} _ _ _ _ _ _.
Arguments fuse {St} _.
Arguments conflict_aware_weighted_average {St} _.
Arguments optimistic_fusion {St} _.
Arguments pessimistic_fusion {St} _.

(** ** Validity of a judgment

    The condition both harnesses evaluate on a fusion result,
<<
      0 <= j.T <= 1 and 0 <= j.I <= 1 and 0 <= j.F <= 1 and
      j.T + j.I + j.F <= 1.0
>>
    A chained comparison reads its middle operand once.  The bounds [0] and
    [1] are [int] literals, [1.0] is a [float] literal, and the sum is
    [(j.T + j.I) + j.F]. *)

Definition in_unit_interval (read : result pyval) : result bool :=
  let? x := read in
  and_then (py_le (PyInt 0) x) (py_le x (PyInt 1)).

Definition sum_at_most_one (j : judgment) : result bool :=
  let? t := attr_T j in
  let? i := attr_I j in
  let? ti := py_add t i in
  let? f := attr_F j in
  let? tif := py_add ti f in
  py_le tif (PyFloat 1.0).

Definition validity_condition (j : judgment) : result bool :=
  and_then (in_unit_interval (attr_T j))
 (and_then (in_unit_interval (attr_I j))
 (and_then (in_unit_interval (attr_F j))
           (sum_at_most_one j))).

(** ** Fixtures *)

(** The [input] object of a judgment-creation vector. *)
Record judgment_input : Type := mk_input {
  input_T : pyval;
  input_I : pyval;
  input_F : pyval;
  input_provenance_chain : list provenance_entry
}.

(** One element of [test_vectors] in [judgments.json].  [expected_error] is
    an optional key: [None] is a vector without it. *)
Record test_case : Type := mk_test_case {
  name : string;
  input : judgment_input;
  expected_valid : bool;
  expected_error : option string
}.

(** One element of [test_vectors] in [fusion-tests.json]; neither harness
    looks inside. *)
Record fusion_case : Type := mk_fusion_case { fusion_name : string }.

(** A fixture file on disk: missing, present but rejected by [json.load], or
    present and parsed to a JSON object whose keys hold lists of vectors. *)
Inductive fixture_file (A : Type) : Type :=
| Absent
| Malformed (why : string)
| Parsed (data : gmap string (list A)).
Arguments Absent {A}.
Arguments Malformed {A} why.
Arguments Parsed {A} data.

(** The test-vector directory. *)
Record fixtures : Type := mk_fixtures {
  judgments_json : fixture_file test_case;
  fusion_tests_json : fixture_file fusion_case
}.

(** [path.exists()] *)
Definition file_exists {A} (f : fixture_file A) : bool :=
  match f with
  | Absent => false
  | _ => true
  end.

(** [json.load(f)] after [open(path, 'r')] *)
Definition json_load {A} (f : fixture_file A) : result (gmap string (list A)) :=
  match f with
  | Parsed d => Ok d
  | Malformed why => Raise (mk_exn JSONDecodeError why)
  | Absent => Raise (mk_exn (OtherException "FileNotFoundError") "No such file or directory")
  end.

(** [data['test_vectors']] *)
Definition subscript_test_vectors {A} (data : gmap string (list A)) : result (list A) :=
  match data !! "test_vectors" with
  | Some vs => Ok vs
  | None => Raise (mk_exn KeyError "'test_vectors'")
  end.

(** The body shared by both loaders for one file:
<<
      if file.exists():
          with open(file, 'r') as f:
              vectors[key] = json.load(f)['test_vectors']
>>
    [None] is a key that was not set. *)
Definition load_if_exists {A} (f : fixture_file A) : result (option (list A)) :=
  if file_exists f then
    let? data := json_load f in
    let? vs := subscript_test_vectors data in
    Ok (Some vs)
  else Ok None.

(** The three verdicts of a probe. *)
Inductive verdict : Type := PASS | WARN | FAIL.

(** The world a harness runs in: the state of the SDK under test and the
    harness's own mutable state. *)
Record world (St H : Type) : Type := mk_world {
  sdk_state : St;
  harness : H
}.
Arguments mk_world {St H} _ _.
Arguments sdk_state {St H} _.
Arguments harness {St H} _.

(** A call into the SDK. *)
Definition call {St H A} (f : St -> result A * St) : M (world St H) A :=
  fun w => let (r, s) := f (sdk_state w) in (r, mk_world s (harness w)).

(** An assignment to the harness's own state. *)
Definition update {St H} (f : H -> H) : M (world St H) unit :=
  modify (fun w => mk_world (sdk_state w) (f (harness w))).

(** A read of the harness's own state. *)
Definition current {St H} : M (world St H) H :=
  fun w => (Ok (harness w), w).

(** The one-element chain literal
    [[{"source_id": id, "timestamp": "2025-09-20T20:30:00Z"}]]. *)
Definition chain_literal (id : string) : list provenance_entry :=
  [mk_entry id "2025-09-20T20:30:00Z"].

(** The score expression
    [(total_passed / total_tests * 100) if total_tests > 0 else 0]. *)
Definition score_of (total_passed total_tests : nat) : Q :=
  if (0 <? total_tests)%nat
  then inject_Z (Z.of_nat total_passed) / inject_Z (Z.of_nat total_tests) * 100
  else 0.

(** The exit-code ladder at the end of [main]: [sys.exit(0)] from 90,
    [sys.exit(1)] from 70, [sys.exit(2)] below. *)
Definition exit_code_of (score : Q) : Z :=
  if Qle_bool 90 score then 0%Z
  else if Qle_bool 70 score then 1%Z
  else 2%Z.

(** ** [validate_vectors.py]: class [TestVectorValidator] *)

Module TestRunner.

(** An entry of a category's ['details'] list. *)
Record detail : Type := mk_detail {
  test : string;
  status : verdict;
  message : string
}.

(** [{'passed': .., 'total': .., 'details': [..]}] *)
Record category_result : Type := mk_category {
  passed : nat;
  total : nat;
  details : list detail
}.

(** [{'passed': .., 'total': .., 'score': ..}] *)
Record overall_result : Type := mk_overall {
  overall_passed : nat;
  overall_total : nat;
  score : Q
}.

(** [self.results]: the three category keys set by [__init__], and
    ['overall'], set at the end of [run_validation]. *)
Record results : Type := mk_results {
  judgment_creation : category_result;
  fusion_operators : category_result;
  edge_cases : category_result;
  overall : option overall_result
}.

Inductive category : Type := JudgmentCreation | FusionOperators | EdgeCases.

(** An update of [self.results[c]]. *)
Definition set_category (c : category) (f : category_result -> category_result)
    (r : results) : results :=
  match c with
  | JudgmentCreation =>
      mk_results (f (judgment_creation r)) (fusion_operators r) (edge_cases r) (overall r)
  | FusionOperators =>
      mk_results (judgment_creation r) (f (fusion_operators r)) (edge_cases r) (overall r)
  | EdgeCases =>
      mk_results (judgment_creation r) (fusion_operators r) (f (edge_cases r)) (overall r)
  end.

(** [__init__] *)
Definition init_results : results :=
  let empty := mk_category 0 0 [] in
  mk_results empty empty empty None.

(** [sum(r['passed'] for r in self.results.values())] and
    [sum(r['total'] for r in self.results.values())].  The dictionary holds
    the three category entries and, once a run of the same validator has
    stored it, the ['overall'] entry, which has a ['passed'] and a ['total']
    of its own and is summed like the others. *)
Definition sum_passed (r : results) : nat :=
  passed (judgment_creation r) + passed (fusion_operators r) + passed (edge_cases r)
  + match overall r with
    | Some o => overall_passed o
    | None => 0
    end.

Definition sum_total (r : results) : nat :=
  total (judgment_creation r) + total (fusion_operators r) + total (edge_cases r)
  + match overall r with
    | Some o => overall_total o
    | None => 0
    end.

(** [_is_valid_judgment]: the validity condition under [try], with a bare
    [except: return False]. *)
Definition _is_valid_judgment (j : judgment) : bool :=
  match validity_condition j with
  | Ok b => b
  | Raise _ => false
  end.

(** The dictionary built by [load_test_vectors]; a key that was not set is
    [None]. *)
Record test_vectors : Type := mk_test_vectors {
  tv_judgment_creation : option (list test_case);
  tv_fusion : option (list fusion_case)
}.

Definition load_test_vectors (fx : fixtures) : result test_vectors :=
  let? jc := load_if_exists (judgments_json fx) in
  let? fu := load_if_exists (fusion_tests_json fx) in
  Ok (mk_test_vectors jc fu).

(** What [run_validation] returns: [{"error": ..}] or [self.results]. *)
Inductive run_output : Type :=
| RunError (error : string)
| RunResults (r : results).

Section WithSdk.
Context {St : Type} (sdk_module : sdk_module St).

Abbreviation stmt := (M (world St results)).

(** [self.results[c]['total'] += 1] *)
Definition incr_total (c : category) : stmt unit :=
  update (set_category c (fun r => mk_category (passed r) (total r + 1) (details r))).

(** [self.results[c]['passed'] += 1] *)
Definition incr_passed (c : category) : stmt unit :=
  update (set_category c (fun r => mk_category (passed r + 1) (total r) (details r))).

(** [self.results[c]['details'].append({'test': .., 'status': .., 'message': ..})] *)
Definition append_detail (c : category) (t : string) (v : verdict) (msg : string)
    : stmt unit :=
  update (set_category c (fun r =>
    mk_category (passed r) (total r) (details r ++ [mk_detail t v msg]))).

(** The body of the loop of [validate_judgment_creation]. *)
Definition judgment_creation_probe (test_case : test_case) : stmt unit :=
  let test_name := name test_case in
  incr_total JudgmentCreation ;;
  try_except
    (let* judgment := call (NeutrosophicJudgment sdk_module
                              (input_T (input test_case))
                              (input_I (input test_case))
                              (input_F (input test_case))
                              (input_provenance_chain (input test_case))) in
     if expected_valid test_case then
       incr_passed JudgmentCreation ;;
       append_detail JudgmentCreation test_name PASS
         "Valid judgment created successfully"
     else
       append_detail JudgmentCreation test_name FAIL
         "Should have failed but didn't")
    (fun e =>
     let error_msg := str e in
     if negb (expected_valid test_case) then
       let expected_error := default "" (expected_error test_case) in
       if truthy expected_error && str_in expected_error error_msg then
         incr_passed JudgmentCreation ;;
         append_detail JudgmentCreation test_name PASS
           ("Failed as expected: " ++ error_msg)
       else
         append_detail JudgmentCreation test_name WARN
           ("Failed as expected but wrong error: " ++ error_msg) ;;
         incr_passed JudgmentCreation
     else
       append_detail JudgmentCreation test_name FAIL
         ("Unexpected error: " ++ error_msg)).

Definition validate_judgment_creation (test_vectors : list test_case) : stmt unit :=
  for_each test_vectors judgment_creation_probe.

(** One of the three blocks of [validate_fusion_operators]: count the
    probe, call the operator under [try], check the result. *)
Definition fusion_probe (test_name : string)
    (operator : St -> result judgment * St) : stmt unit :=
  incr_total FusionOperators ;;
  try_except
    (let* result := call operator in
     if _is_valid_judgment result then
       incr_passed FusionOperators ;;
       append_detail FusionOperators test_name PASS "Valid fusion result"
     else
       append_detail FusionOperators test_name FAIL "Invalid fusion result")
    (fun e =>
       append_detail FusionOperators test_name FAIL ("Error: " ++ str e)).

Definition validate_fusion_operators : stmt unit :=
  (* the list of test judgments is built before the first [try] *)
  let* j1 := call (NeutrosophicJudgment sdk_module
                     (PyFloat 0.8) (PyFloat 0.2) (PyFloat 0.0) (chain_literal "test1")) in
  let* j2 := call (NeutrosophicJudgment sdk_module
                     (PyFloat 0.6) (PyFloat 0.3) (PyFloat 0.1) (chain_literal "test2")) in
  let judgments := [j1; j2] in
  fusion_probe "conflict_aware_weighted_average"
    (Fuse.conflict_aware_weighted_average (fuse sdk_module) judgments
       [PyFloat 0.6; PyFloat 0.4]) ;;
  fusion_probe "optimistic_fusion"
    (Fuse.optimistic_fusion (fuse sdk_module) judgments) ;;
  fusion_probe "pessimistic_fusion"
    (Fuse.pessimistic_fusion (fuse sdk_module) judgments).

(** First block of [validate_edge_cases]: "Test single judgment fusion". *)
Definition single_judgment_probe : stmt unit :=
  incr_total EdgeCases ;;
  try_except
    (let* judgment := call (NeutrosophicJudgment sdk_module
                              (PyFloat 0.8) (PyFloat 0.2) (PyFloat 0.0) (chain_literal "test")) in
     let* result := call (Fuse.conflict_aware_weighted_average (fuse sdk_module)
                            [judgment] [PyFloat 1.0]) in
     let* ok := eval (and_then (Ok (_is_valid_judgment result))
                               (let? t := attr_T result in Ok (py_eq t (PyFloat 0.8)))) in
     if ok then
       incr_passed EdgeCases ;;
       append_detail EdgeCases "single_judgment_fusion" PASS
         "Single judgment fusion works correctly"
     else
       append_detail EdgeCases "single_judgment_fusion" FAIL
         "Single judgment fusion failed")
    (fun e =>
       append_detail EdgeCases "single_judgment_fusion" FAIL ("Error: " ++ str e)).

(** Second block of [validate_edge_cases]: "Test zero weights fallback". *)
Definition zero_weights_probe : stmt unit :=
  incr_total EdgeCases ;;
  try_except
    (let* j1 := call (NeutrosophicJudgment sdk_module
                        (PyFloat 0.9) (PyFloat 0.1) (PyFloat 0.9) (chain_literal "test1")) in
     let* j2 := call (NeutrosophicJudgment sdk_module
                        (PyFloat 0.8) (PyFloat 0.2) (PyFloat 0.8) (chain_literal "test2")) in
     let judgments := [j1; j2] in
     let* result := call (Fuse.conflict_aware_weighted_average (fuse sdk_module)
                            judgments [PyFloat 0.0; PyFloat 0.0]) in
     if _is_valid_judgment result then
       incr_passed EdgeCases ;;
       append_detail EdgeCases "zero_weights_fallback" PASS
         "Zero weights fallback works correctly"
     else
       append_detail EdgeCases "zero_weights_fallback" FAIL
         "Zero weights fallback failed")
    (fun e =>
       append_detail EdgeCases "zero_weights_fallback" FAIL ("Error: " ++ str e)).

Definition validate_edge_cases : stmt unit :=
  single_judgment_probe ;;
  zero_weights_probe.

(** The part of [run_validation] that follows a successful import of the
    SDK module.  The two sums range over [self.results.values()]. *)
Definition run_categories (fx : fixtures) : stmt run_output :=
  let* test_vectors := eval (load_test_vectors fx) in
  match tv_judgment_creation test_vectors with
  | Some vs => validate_judgment_creation vs
  | None => ret tt
  end ;;
  validate_fusion_operators ;;
  validate_edge_cases ;;
  update (fun r =>
    let total_passed := sum_passed r in
    let total_tests := sum_total r in
    mk_results (judgment_creation r) (fusion_operators r) (edge_cases r)
      (Some (mk_overall total_passed total_tests (score_of total_passed total_tests)))) ;;
  let* results := current in
  ret (RunResults results).

End WithSdk.

(** [run_validation]: [load] is the outcome of importing the SDK module
    from [sdk_path]. *)
Definition run_validation {St} (load : result (sdk_module St)) (fx : fixtures)
    : M (world St results) run_output :=
  match load with
  | Raise e => ret (RunError (str e))
  | Ok sdk_module => run_categories sdk_module fx
  end.

(** [main], reduced to the exit status of the process: the value passed to
    [sys.exit].  A [Raise] outcome is an uncaught exception, which ends the
    process with a traceback. *)
Definition main {St} (load : result (sdk_module St)) (fx : fixtures)
    : M (world St results) Z :=
  let* results := run_validation load fx in
  match results with
  | RunError _ => ret 1%Z
  | RunResults r =>
      match overall r with
      | Some o => ret (exit_code_of (score o))
      | None => raise (mk_exn KeyError "'overall'")
      end
  end.

(** The world [main] starts in: a freshly initialised validator. *)
Definition initial_world {St} (s : St) : world St results := mk_world s init_results.

End TestRunner.

(** ** [check_conformance.py]: class [ConformanceValidator] *)

Module Validator.

(** A verdict line on the console: the glyph (check mark for [PASS], cross
    for [FAIL], warning sign for [WARN]), the probe it names and the rest
    of the line. *)
Record line : Type := mk_line {
  glyph : verdict;
  subject : string;
  note : string
}.

(** The local variables of the method being run.  [judgments] is bound only
    once the assignment in [validate_fusion_operators] has completed. *)
Record frame : Type := mk_frame {
  passed : nat;
  total : nat;
  judgments : option (list judgment)
}.

(** What the harness mutates: the console and the current locals. *)
Record console : Type := mk_console {
  stdout : list line;
  locals : frame
}.

(** [self.test_vectors], built by [_load_test_vectors] in [__init__]. *)
Record test_vectors : Type := mk_test_vectors {
  tv_judgments : option (list test_case);
  tv_fusion : option (list fusion_case)
}.

Definition _load_test_vectors (fx : fixtures) : result test_vectors :=
  let? js := load_if_exists (judgments_json fx) in
  let? fu := load_if_exists (fusion_tests_json fx) in
  Ok (mk_test_vectors js fu).

(** [{"passed": .., "total": ..}] *)
Record category_result : Type := mk_category {
  cat_passed : nat;
  cat_total : nat
}.

(** [{"passed": .., "total": .., "score": ..}] *)
Record overall_result : Type := mk_overall {
  overall_passed : nat;
  overall_total : nat;
  score : Q
}.

(** The [results] dictionary of [run_validation]. *)
Record results : Type := mk_results {
  judgment_creation : category_result;
  fusion_operators : category_result;
  provenance_chain : category_result;
  overall : overall_result
}.

Inductive run_output : Type :=
| RunError (error : string)
| RunResults (r : results).

Section WithSdk.
Context {St : Type} (sdk_module : sdk_module St).

Abbreviation stmt := (M (world St console)).

(** [print(f"  {glyph} {subject}{note}")] *)
Definition print (v : verdict) (subject note : string) : stmt unit :=
  update (fun c => mk_console (stdout c ++ [mk_line v subject note]) (locals c)).

Definition set_locals (f : frame -> frame) : stmt unit :=
  update (fun c => mk_console (stdout c) (f (locals c))).

(** [passed = 0; total = 0] at the head of a method *)
Definition enter : stmt unit :=
  set_locals (fun _ => mk_frame 0 0 None).

(** [passed += 1] *)
Definition incr_passed : stmt unit :=
  set_locals (fun f => mk_frame (passed f + 1) (total f) (judgments f)).

(** [total += n] *)
Definition add_total (n : nat) : stmt unit :=
  set_locals (fun f => mk_frame (passed f) (total f + n) (judgments f)).

(** [judgments = js] *)
Definition assign_judgments (js : list judgment) : stmt unit :=
  set_locals (fun f => mk_frame (passed f) (total f) (Some js)).

(** A read of the local [judgments], which is unbound when the assignment
    of the first block did not complete.  Python evaluates the callable of
    a call before its arguments, so in each block the lookup of the operator
    comes first. *)
Definition read_judgments : stmt (list judgment) :=
  let* c := current in
  match judgments (locals c) with
  | Some js => ret js
  | None =>
      raise (mk_exn UnboundLocalError
               "cannot access local variable 'judgments' where it is not associated with a value")
  end.

(** [return passed, total] *)
Definition return_counts : stmt (nat * nat) :=
  let* c := current in
  ret (passed (locals c), total (locals c)).

(** [test_case['expected_error']] *)
Definition subscript_expected_error (test_case : test_case) : result string :=
  match expected_error test_case with
  | Some s => Ok s
  | None => Raise (mk_exn KeyError "'expected_error'")
  end.

(** The body of the loop of [validate_judgment_creation]. *)
Definition judgment_creation_probe (test_case : test_case) : stmt unit :=
  add_total 1 ;;
  let test_name := name test_case in
  try_except
    (let* judgment := call (NeutrosophicJudgment sdk_module
                              (input_T (input test_case))
                              (input_I (input test_case))
                              (input_F (input test_case))
                              (input_provenance_chain (input test_case))) in
     if expected_valid test_case then
       print PASS test_name "" ;;
       incr_passed
     else
       print FAIL test_name " - Should have failed but didn't")
    (fun e =>
     let error_msg := str e in
     if negb (expected_valid test_case) then
       let* expected_error := eval (subscript_expected_error test_case) in
       if truthy expected_error && str_in expected_error error_msg then
         print PASS test_name "" ;;
         incr_passed
       else
         print WARN test_name (" - Failed as expected but wrong error: " ++ error_msg) ;;
         incr_passed
     else
       print FAIL test_name (" - Unexpected error: " ++ error_msg)).

(** [self.test_vectors.get('judgments', [])] *)
Definition get_judgments (tv : test_vectors) : list test_case :=
  default [] (tv_judgments tv).

Definition validate_judgment_creation (tv : test_vectors) : stmt (nat * nat) :=
  enter ;;
  for_each (get_judgments tv) judgment_creation_probe ;;
  return_counts.

(** The check applied to a fusion result, shared by the three blocks of
    [validate_fusion_operators]; it runs inside the block's [try]. *)
Definition check_result (test_name : string) (result : judgment) : stmt unit :=
  let* valid := eval (validity_condition result) in
  (if valid : bool then
     print PASS test_name "" ;;
     incr_passed
   else
     print FAIL test_name " - Invalid result") ;;
  add_total 1.

(** The [except Exception as e] clause shared by the three blocks. *)
Definition on_error (test_name : string) (e : exn) : stmt unit :=
  print FAIL test_name (" - Error: " ++ str e) ;;
  add_total 1.

Definition validate_fusion_operators : stmt (nat * nat) :=
  enter ;;
  try_except
    (let* j1 := call (NeutrosophicJudgment sdk_module
                        (PyFloat 0.8) (PyFloat 0.2) (PyFloat 0.0) (chain_literal "test1")) in
     let* j2 := call (NeutrosophicJudgment sdk_module
                        (PyFloat 0.6) (PyFloat 0.3) (PyFloat 0.1) (chain_literal "test2")) in
     assign_judgments [j1; j2] ;;
     let* operator := eval (conflict_aware_weighted_average sdk_module) in
     let* judgments := read_judgments in
     let* result := call (operator judgments [PyFloat 0.6; PyFloat 0.4]) in
     check_result "Conflict-aware weighted average" result)
    (on_error "Conflict-aware weighted average") ;;
  try_except
    (let* operator := eval (optimistic_fusion sdk_module) in
     let* judgments := read_judgments in
     let* result := call (operator judgments) in
     check_result "Optimistic fusion" result)
    (on_error "Optimistic fusion") ;;
  try_except
    (let* operator := eval (pessimistic_fusion sdk_module) in
     let* judgments := read_judgments in
     let* result := call (operator judgments) in
     check_result "Pessimistic fusion" result)
    (on_error "Pessimistic fusion") ;;
  return_counts.

Definition validate_provenance_chain : stmt (nat * nat) :=
  enter ;;
  try_except
    (let* judgment := call (NeutrosophicJudgment sdk_module
                              (PyFloat 0.8) (PyFloat 0.2) (PyFloat 0.0) (chain_literal "test")) in
     (* len(judgment.provenance_chain) == 1 *)
     let* chain := eval (attr_provenance_chain judgment) in
     let* n := eval (chain_len chain) in
     (if (n =? 1)%nat then
        print PASS "Provenance chain creation" "" ;;
        incr_passed
      else
        print FAIL "Provenance chain creation" " - Wrong length") ;;
     add_total 1 ;;
     try_except_only is_AttributeError_or_TypeError
       ((* judgment.provenance_chain.append({"source_id": "hack"}) *)
        let* chain := eval (attr_provenance_chain judgment) in
        eval (chain_append chain) ;;
        print FAIL "Provenance chain immutability" " - Should be immutable")
       (fun _ =>
          print PASS "Provenance chain immutability" "" ;;
          incr_passed) ;;
     add_total 1)
    (fun e =>
       print FAIL "Provenance chain tests" (" - Error: " ++ str e) ;;
       add_total 2) ;;
  return_counts.

(** The part of [run_validation] that follows a successful import of the
    SDK module. *)
Definition run_categories (tv : test_vectors) : stmt run_output :=
  let* jc := validate_judgment_creation tv in
  let* fo := validate_fusion_operators in
  let* pc := validate_provenance_chain in
  let total_passed := (fst jc + fst fo + fst pc)%nat in
  let total_tests := (snd jc + snd fo + snd pc)%nat in
  ret (RunResults
         (mk_results (mk_category (fst jc) (snd jc))
                     (mk_category (fst fo) (snd fo))
                     (mk_category (fst pc) (snd pc))
                     (mk_overall total_passed total_tests
                        (score_of total_passed total_tests)))).

End WithSdk.

(** [run_validation]: [load] is the outcome of importing the SDK module
    from [sdk_path]. *)
Definition run_validation {St} (load : result (sdk_module St)) (tv : test_vectors)
    : M (world St console) run_output :=
  match load with
  | Raise e => ret (RunError (str e))
  | Ok sdk_module => run_categories sdk_module tv
  end.

(** [main], reduced to the exit status of the process.  The validator is
    constructed first, and its [__init__] loads the fixtures. *)
Definition main {St} (load : result (sdk_module St)) (fx : fixtures)
    : M (world St console) Z :=
  let* test_vectors := eval (_load_test_vectors fx) in
  let* results := run_validation load test_vectors in
  match results with
  | RunError _ => ret 1%Z
  | RunResults r => ret (exit_code_of (score (overall r)))
  end.

(** The world [main] starts in: nothing printed yet. *)
Definition initial_world {St} (s : St) : world St console :=
  mk_world s (mk_console [] (mk_frame 0 0 None)).

End Validator.

(** ** Sample SDKs

    Concrete SDK modules on which the harnesses are run in the examples
    below.  Their state is [unit] unless they record their calls. *)

Module Samples.

#[local] Open Scope float_scope.

(** [float(x)] where the sample constructor accepts [x]: a number within
    the range of [float]. *)
Definition as_float (x : pyval) : option float :=
  match x with
  | PyFloat f => Some f
  | PyInt z => if is_infinity (float_of_Z z) then None else Some (float_of_Z z)
  | PyNone => None
  end.

(** The checks a conformant constructor applies to its three components as
    floats: each lies in the unit interval, and the sum does not exceed
    one. *)
Definition in_range (t i f : float) : bool :=
  (0 <=? t) && (t <=? 1) && (0 <=? i) && (i <=? 1) && (0 <=? f) && (f <=? 1).

Definition sum_exceeds (t i f : float) : bool :=
  1 <? t + i + f.

(** A chain stored as a tuple: [append] does not exist. *)
Definition tuple_chain (n : nat) : chain_obj :=
  mk_chain (Ok n)
    (Raise (mk_exn AttributeError "'tuple' object has no attribute 'append'")).

(** A chain stored as a plain list: [append] succeeds. *)
Definition list_chain (n : nat) : chain_obj :=
  mk_chain (Ok n) (Ok tt).

(** A chain class of the SDK whose [append] raises [ValueError]. *)
Definition guarded_chain (n : nat) : chain_obj :=
  mk_chain (Ok n)
    (Raise (mk_exn (OtherException "ValueError") "provenance chain is immutable")).

Definition make_judgment (chain : nat -> chain_obj) (t i f : pyval)
    (pc : list provenance_entry) : judgment :=
  mk_judgment (Ok t) (Ok i) (Ok f) (Ok (chain (length pc))).

Definition out_of_range : exn :=
  mk_exn (OtherException "ValueError") "T, I and F must be numbers in [0, 1]".

Definition excess_sum : exn :=
  mk_exn (OtherException "ValueError") "T+I+F exceeds 1.0".

(** A constructor that raises on unacceptable components and stores the
    accepted ones as floats. *)
Definition strict_constructor {St} (chain : nat -> chain_obj) (T I F : pyval)
    (pc : list provenance_entry) (s : St) : result judgment * St :=
  match as_float T, as_float I, as_float F with
  | Some t, Some i, Some f =>
      if negb (in_range t i f) then (Raise out_of_range, s)
      else if sum_exceeds t i f then (Raise excess_sum, s)
      else (Ok (make_judgment chain (PyFloat t) (PyFloat i) (PyFloat f) pc), s)
  | _, _, _ => (Raise out_of_range, s)
  end.

(** A fusion operator that hands back its first argument. *)
Definition first_judgment {St} (js : list judgment) (s : St) : result judgment * St :=
  match js with
  | j :: _ => (Ok j, s)
  | [] => (Raise (mk_exn (OtherException "ValueError") "no judgments"), s)
  end.

(** The three operators of the samples, under [fuse]. *)
Definition first_judgment_fuse {St} : Fuse.namespace St :=
  Fuse.mk_namespace (fun js _ => first_judgment js) first_judgment first_judgment.

(** An SDK module with the given constructor and weighted average, whose
    operators are exposed both as [sdk.fuse.X] and as [sdk.X]. *)
Definition sdk_of {St}
    (constructor : pyval -> pyval -> pyval -> list provenance_entry -> St ->
                   result judgment * St)
    (average : list judgment -> list pyval -> St -> result judgment * St)
    : sdk_module St :=
  mk_sdk constructor
         (Fuse.mk_namespace average first_judgment first_judgment)
         (Ok average) (Ok first_judgment) (Ok first_judgment).

Definition sdk_with_chain (chain : nat -> chain_obj) : sdk_module unit :=
  sdk_of (strict_constructor chain) (fun js _ => first_judgment js).

(** Validating constructor, tuple chains. *)
Definition strict_sdk : sdk_module unit := sdk_with_chain tuple_chain.

(** Validating constructor, chains whose [append] raises [ValueError]. *)
Definition guarded_sdk : sdk_module unit := sdk_with_chain guarded_chain.

(** Validating constructor, chains that are plain lists. *)
Definition mutable_sdk : sdk_module unit := sdk_with_chain list_chain.

(** An SDK module that does not define [NeutrosophicJudgment]: every
    attempt to construct a judgment raises. *)
Definition broken_constructor : exn :=
  mk_exn AttributeError "module 'sdk' has no attribute 'NeutrosophicJudgment'".

Definition broken_sdk : sdk_module unit :=
  sdk_of (fun _ _ _ _ s => (Raise broken_constructor, s))
         (fun js _ => first_judgment js).

(** An SDK module that defines neither the class nor, at top level, the
    operators. *)
Definition missing (attribute : string) : exn :=
  mk_exn AttributeError ("module 'sdk' has no attribute '" ++ attribute ++ "'").

Definition empty_sdk : sdk_module unit :=
  mk_sdk (fun _ _ _ _ s => (Raise broken_constructor, s))
         first_judgment_fuse
         (Raise (missing "conflict_aware_weighted_average"))
         (Raise (missing "optimistic_fusion"))
         (Raise (missing "pessimistic_fusion")).

(** A conformant SDK that exposes its operators under [fuse] only. *)
Definition fuse_only_sdk : sdk_module unit :=
  mk_sdk (strict_constructor tuple_chain)
         first_judgment_fuse
         (Raise (missing "conflict_aware_weighted_average"))
         (Raise (missing "optimistic_fusion"))
         (Raise (missing "pessimistic_fusion")).

(** An SDK whose weighted average keeps [T] of its first argument and
    returns zero for [I] and [F]. *)
Definition truth_only (js : list judgment) (s : unit) : result judgment * unit :=
  match js with
  | j :: _ => (Ok (mk_judgment (attr_T j) (Ok (PyFloat 0.0)) (Ok (PyFloat 0.0))
                     (attr_provenance_chain j)), s)
  | [] => (Raise (mk_exn (OtherException "ValueError") "no judgments"), s)
  end.

Definition truth_only_sdk : sdk_module unit :=
  sdk_of (strict_constructor tuple_chain) (fun js _ => truth_only js).

(** An SDK that accepts every input and records the components its
    constructor was called with, in call order. *)
Definition recording_sdk : sdk_module (list (pyval * pyval * pyval)) :=
  sdk_of (fun t i f pc s => (Ok (make_judgment tuple_chain t i f pc), (s ++ [(t, i, f)])%list))
         (fun js _ => first_judgment js).

Definition entry : list provenance_entry :=
  [mk_entry "s1" "2025-01-01T00:00:00Z"].

(** The vector [basic_valid] of the specification. *)
Definition basic_valid : test_case :=
  mk_test_case "basic_valid"
    (mk_input (PyFloat 0.7) (PyFloat 0.2) (PyFloat 0.1) entry) true None.

(** The vector [sum_exceeds_one] of the specification. *)
Definition sum_exceeds_one : test_case :=
  mk_test_case "sum_exceeds_one"
    (mk_input (PyFloat 0.6) (PyFloat 0.5) (PyFloat 0.1) entry) false (Some "sum").

(** The same input, expecting the wording the SDK uses. *)
Definition sum_exceeds_one_worded : test_case :=
  mk_test_case "sum_exceeds_one_worded"
    (mk_input (PyFloat 0.6) (PyFloat 0.5) (PyFloat 0.1) entry) false (Some "exceeds").

(** An invalid input without an [expected_error] key. *)
Definition negative_truth : test_case :=
  mk_test_case "negative_truth"
    (mk_input (PyFloat (-0.1)) (PyFloat 0.5) (PyFloat 0.1) entry) false None.

(** A result object without an attribute [T]. *)
Definition no_T : judgment :=
  mk_judgment (Raise (mk_exn AttributeError "'Result' object has no attribute 'T'"))
    (Ok (PyFloat 0.2)) (Ok (PyFloat 0.1)) (Ok (tuple_chain 1)).

(** The judgment (0.7, 0.2, 0.1). *)
Definition seven_two_one : judgment :=
  make_judgment tuple_chain (PyFloat 0.7) (PyFloat 0.2) (PyFloat 0.1) entry.

(** The judgment (0.5, 0.5, 1e-17): the third component is lost when it is
    added to 1.0. *)
Definition half_half_tiny : judgment :=
  make_judgment tuple_chain (PyFloat 0.5) (PyFloat 0.5) (PyFloat 1e-17) entry.

(** A judgment whose components are the [int]s (1, 0, 0). *)
Definition one_zero_zero : judgment :=
  make_judgment tuple_chain (PyInt 1) (PyInt 0) (PyInt 0) entry.



(** A fixture directory with only [judgments.json]. *)
Definition fixtures_of (vs : list test_case) : fixtures :=
  mk_fixtures (Parsed {[ "test_vectors" := vs ]}) Absent.

End Samples.

(** ** Vocabulary of the specification *)

(** [0 <= x <= 1] holds of the number [x], as Python compares it with the
    [int] bounds. *)
Definition in_unit (x : pyval) : Prop :=
  py_le (PyInt 0) x = Ok true /\ py_le x (PyInt 1) = Ok true.

(** [t + i + f <= 1.0] holds, as Python computes it: [t + i] first, then
    [f] added to that sum, each addition rounded when it is one of floats,
    and the result compared with the float [1.0]. *)
Definition sum_at_most_one_py (t i f : pyval) : Prop :=
  exists ti tif,
    py_add t i = Ok ti /\ py_add ti f = Ok tif /\ py_le tif (PyFloat 1.0) = Ok true.

(** The validity condition on three numbers. *)
Definition within_bounds (t i f : pyval) : Prop :=
  in_unit t /\ in_unit i /\ in_unit f /\ sum_at_most_one_py t i f.

(** The rational a number stands for: itself for an [int], the value of the
    binary64 datum for a finite [float]. *)
Definition exact_value (x : pyval) : option Q :=
  match x with
  | PyInt z => Some (inject_Z z)
  | PyFloat f =>
      match Prim2SF f with
      | S754_zero _ => Some 0%Q
      | S754_finite negative m e =>
          Some (inject_Z (if negative then Z.neg m else Z.pos m) * 2 ^ e)%Q
      | _ => None
      end
  | PyNone => None
  end.

(** The validity condition of the specification on three rationals, in
    exact arithmetic. *)
Definition within_bounds_exact (t i f : Q) : Prop :=
  ((0 <= t /\ t <= 1) /\ (0 <= i /\ i <= 1) /\ (0 <= f /\ f <= 1) /\ t + i + f <= 1)%Q.

(** [matches_expected_error] as the specification words it: true iff the
    expected substring is non-empty and is a literal substring of the actual
    message; an absent expected substring yields false. *)
Definition matches_expected_error (actual_message : string)
    (expected_substring : option string) : bool :=
  match expected_substring with
  | Some s => truthy s && str_in s actual_message
  | None => false
  end.

(** The verdict the judgment-creation protocol of the specification assigns
    to a vector, given the outcome of the construction. *)
Definition creation_verdict (tc : test_case) (outcome : result judgment) : verdict :=
  match outcome, expected_valid tc with
  | Ok _, true => PASS
  | Ok _, false => FAIL
  | Raise e, false =>
      if matches_expected_error (str e) (expected_error tc) then PASS else WARN
  | Raise _, true => FAIL
  end.

(** [PASS] and [WARN] count toward [passed]; [FAIL] does not. *)
Definition counted (v : verdict) : nat :=
  match v with
  | PASS | WARN => 1
  | FAIL => 0
  end.

(** The verdicts the console shows for one probe. *)
Definition verdicts_for (probe : string) (out : list Validator.line) : list verdict :=
  map Validator.glyph
    (filter (fun l => String.eqb (Validator.subject l) probe) out).

(** The message [validate_vectors.py] stores with that verdict. *)
Definition creation_message (tc : test_case) (outcome : result judgment) : string :=
  match outcome, expected_valid tc with
  | Ok _, true => "Valid judgment created successfully"
  | Ok _, false => "Should have failed but didn't"
  | Raise e, false =>
      if matches_expected_error (str e) (expected_error tc)
      then "Failed as expected: " ++ str e
      else "Failed as expected but wrong error: " ++ str e
  | Raise e, true => "Unexpected error: " ++ str e
  end.

(** The text [check_conformance.py] prints after the test name. *)
Definition creation_note (tc : test_case) (outcome : result judgment) : string :=
  match outcome, expected_valid tc with
  | Ok _, true => ""
  | Ok _, false => " - Should have failed but didn't"
  | Raise e, false =>
      if matches_expected_error (str e) (expected_error tc)
      then ""
      else " - Failed as expected but wrong error: " ++ str e
  | Raise e, true => " - Unexpected error: " ++ str e
  end.

(** The verdict of a fusion or edge-case probe of [validate_vectors.py],
    given the outcome of the statements under its [try] and the check the
    probe applies to a result. *)
Definition checked_verdict (check : judgment -> bool) (outcome : result judgment) : verdict :=
  match outcome with
  | Ok r => if check r then PASS else FAIL
  | Raise _ => FAIL
  end.

(** The effect on [self.results] of a probe of category [c] that ends with
    verdict [v]: one more test, one more pass when the verdict counts, one
    more entry in the details. *)
Definition recorded (c : TestRunner.category) (t : string) (v : verdict)
    (msg : string) (r : TestRunner.results) : TestRunner.results :=
  TestRunner.set_category c (fun cr =>
    TestRunner.mk_category (TestRunner.passed cr + counted v) (TestRunner.total cr + 1)
      (TestRunner.details cr ++ [TestRunner.mk_detail t v msg])) r.

(** The effect on the console and the locals of a probe of
    [check_conformance.py] that ends with verdict [v]. *)
Definition printed (t : string) (v : verdict) (note : string)
    (c : Validator.console) : Validator.console :=
  Validator.mk_console (Validator.stdout c ++ [Validator.mk_line v t note])
    (Validator.mk_frame (Validator.passed (Validator.locals c) + counted v)
                        (Validator.total (Validator.locals c) + 1)
                        (Validator.judgments (Validator.locals c))).

(** A vector on which the subscript [test_case['expected_error']] of
    [check_conformance.py] is evaluated and the key is missing. *)
Definition lacks_needed_key (tc : test_case) (outcome : result judgment) : bool :=
  match outcome, expected_valid tc, expected_error tc with
  | Raise _, false, None => true
  | _, _, _ => false
  end.

(** An SDK whose constructor raises on every triple of floats whose sum,
    [t + i + f] as Python computes it, exceeds one. *)
Definition rejects_excess_sum {St} (sdk : sdk_module St) : Prop :=
  forall (t i f : float) (pc : list provenance_entry) (s : St),
    (1 <? t + i + f)%float = true ->
    exists e s', NeutrosophicJudgment sdk (PyFloat t) (PyFloat i) (PyFloat f) pc s = (Raise e, s').

(** An SDK that exposes under [sdk.X] the callables it exposes under
    [sdk.fuse.X]. *)
Definition same_operators {St} (sdk : sdk_module St) : Prop :=
  conflict_aware_weighted_average sdk
    = Ok (Fuse.conflict_aware_weighted_average (fuse sdk))
  /\ optimistic_fusion sdk = Ok (Fuse.optimistic_fusion (fuse sdk))
  /\ pessimistic_fusion sdk = Ok (Fuse.pessimistic_fusion (fuse sdk)).

(** The score and the exit status as binary64 arithmetic gives them:
    [total_passed / total_tests] is the correctly rounded quotient of the
    two counters, [* 100] a float product, and [score >= 90], [score >= 70]
    compare a float with an [int] literal. *)
Definition score_binary64 (total_passed total_tests : nat) : pyval :=
  if (0 <? total_tests)%nat
  then PyFloat (float_of_Z (Z.of_nat total_passed) / float_of_Z (Z.of_nat total_tests)
                * 100)%float
  else PyInt 0.

Definition exit_code_binary64 (score : pyval) : Z :=
  match py_le (PyInt 90) score with
  | Ok true => 0%Z
  | _ =>
      match py_le (PyInt 70) score with
      | Ok true => 1%Z
      | _ => 2%Z
      end
  end.

(** The two exit statuses are equal for every count of passes up to the
    total [t]; for every total up to [n]. *)
Definition exit_codes_agree (t : nat) : bool :=
  forallb (fun p => (exit_code_binary64 (score_binary64 p t)
                     =? exit_code_of (score_of p t))%Z)
          (seq 0 (S t)).

Definition exit_codes_agree_upto (n : nat) : bool :=
  forallb exit_codes_agree (seq 0 (S n)).

(** What a previous run of the same validator has left under ['overall']. *)
Definition carried_passed (r : TestRunner.results) : nat :=
  match TestRunner.overall r with
  | Some o => TestRunner.overall_passed o
  | None => 0
  end.

Definition carried_total (r : TestRunner.results) : nat :=
  match TestRunner.overall r with
  | Some o => TestRunner.overall_total o
  | None => 0
  end.



(** The line the first provenance probe prints for a chain of length [n],
    and what it adds to [passed]. *)
Definition chain_creation_line (n : nat) : Validator.line :=
  if (n =? 1)%nat
  then Validator.mk_line PASS "Provenance chain creation" ""
  else Validator.mk_line FAIL "Provenance chain creation" " - Wrong length".

Definition chain_creation_count (n : nat) : nat :=
  if (n =? 1)%nat then 1 else 0.

(** The console after [validate_provenance_chain] has printed [ls] and
    returns with the given counts. *)
Definition provenance_report {St} (s : St) (c : Validator.console)
    (ls : list Validator.line) (passed total : nat) : world St Validator.console :=
  mk_world s (Validator.mk_console (Validator.stdout c ++ ls)
                (Validator.mk_frame passed total None)).

(** A fixture file that exists and cannot be loaded: [json.load] rejects it,
    or the parsed object has no ['test_vectors'] key.  [e] is the exception
    the loader raises. *)
Definition load_failure {A} (f : fixture_file A) (e : exn) : Prop :=
  (exists why, f = Malformed why /\ e = mk_exn JSONDecodeError why) \/
  (exists d, f = Parsed d /\ d !! "test_vectors" = None /\
             e = mk_exn KeyError "'test_vectors'").

(** A [judgments.json] that lists no vector: [{"test_vectors": []}]. *)
Definition no_vectors : fixture_file test_case :=
  Parsed {[ "test_vectors" := [] ]}.

(** ** Vocabulary of the report invariants *)

(** The number of details that count as passed. *)
Definition tally (ds : list TestRunner.detail) : nat :=
  list_sum (map (fun d => counted (TestRunner.status d)) ds).

(** A category entry of [self.results] whose counters agree with its
    details: [total] is their number, [passed] the number of those with
    status [PASS] or [WARN]. *)
Definition consistent (cr : TestRunner.category_result) : Prop :=
  TestRunner.total cr = length (TestRunner.details cr)
  /\ TestRunner.passed cr = tally (TestRunner.details cr).

Definition report_consistent (r : TestRunner.results) : Prop :=
  consistent (TestRunner.judgment_creation r)
  /\ consistent (TestRunner.fusion_operators r)
  /\ consistent (TestRunner.edge_cases r).

(** [reported r r']: [r'] is [r] after some probes have been recorded, each
    one by [recorded]; nothing else of [self.results] has changed. *)
Inductive reported (r : TestRunner.results) : TestRunner.results -> Prop :=
| reported_none : reported r r
| reported_probe (r' : TestRunner.results) (c : TestRunner.category) (t : string)
    (v : verdict) (msg : string) :
    reported r r' -> reported r (recorded c t v msg r').


(** Every vector that is expected invalid carries an ['expected_error']
    key. *)
Definition keys_present (vs : list test_case) : bool :=
  forallb (fun tc => expected_valid tc ||
                     match expected_error tc with Some _ => true | None => false end) vs.

(** The vectors a loaded [judgments.json] contributes: none when the file is
    absent. *)
Definition loaded_vectors (tv : TestRunner.test_vectors) : list test_case :=
  default [] (TestRunner.tv_judgment_creation tv).

(** Unfolds the statement combinators so that a run reduces by [cbn]. *)
Ltac run_unfold :=
  unfold mbind, M_bind, mret, M_ret, bind, ret, raise, eval, try_except,
    try_except_only, call, update, modify, current in *.

Ltac run := run_unfold; cbn.

(** One step of a symbolic run: case analysis on the outcome of the next
    SDK call, or of the next validity check. *)
Ltac step :=
  match goal with
  | |- context [NeutrosophicJudgment ?sdk ?t ?i ?f ?pc ?s] =>
      destruct (NeutrosophicJudgment sdk t i f pc s) as [[?|?] ?] eqn:?; cbn
  | |- context [Fuse.conflict_aware_weighted_average ?ns ?js ?ws ?s] =>
      destruct (Fuse.conflict_aware_weighted_average ns js ws s) as [[?|?] ?] eqn:?; cbn
  | |- context [Fuse.optimistic_fusion ?ns ?js ?s] =>
      destruct (Fuse.optimistic_fusion ns js s) as [[?|?] ?] eqn:?; cbn
  | |- context [Fuse.pessimistic_fusion ?ns ?js ?s] =>
      destruct (Fuse.pessimistic_fusion ns js s) as [[?|?] ?] eqn:?; cbn
  | |- context [validity_condition ?r] =>
      destruct (validity_condition r) as [[|]|?] eqn:?; cbn
  end.

(** One step of a symbolic run of [check_conformance.py]: besides the
    above, the outcome of the lookup of an operator, and of the call of the
    callable it gave. *)
Ltac lookup_step :=
  match goal with
  | |- context [NeutrosophicJudgment ?sdk ?t ?i ?f ?pc ?s] =>
      destruct (NeutrosophicJudgment sdk t i f pc s) as [[?|?] ?] eqn:?; cbn
  | |- context [conflict_aware_weighted_average ?sdk] =>
      destruct (conflict_aware_weighted_average sdk) as [?|?] eqn:?; cbn
  | |- context [optimistic_fusion ?sdk] =>
      destruct (optimistic_fusion sdk) as [?|?] eqn:?; cbn
  | |- context [pessimistic_fusion ?sdk] =>
      destruct (pessimistic_fusion sdk) as [?|?] eqn:?; cbn
  | operator : list judgment -> list pyval -> _ -> _ |- _ =>
      match goal with
      | |- context [operator ?js ?ws ?s] =>
          destruct (operator js ws s) as [[?|?] ?] eqn:?; cbn
      end
  | operator : list judgment -> _ -> _ |- _ =>
      match goal with
      | |- context [operator ?js ?s] =>
          destruct (operator js s) as [[?|?] ?] eqn:?; cbn
      end
  | |- context [validity_condition ?r] =>
      destruct (validity_condition r) as [[|]|?] eqn:?; cbn
  end.


(** * Properties *)

(** ** Validity predicate *)

Section Validity.
Import TestRunner.

#[local] Arguments py_le : simpl never.
#[local] Arguments py_add : simpl never.

(** The bounds are [int] literals; against a float they are compared as
    the floats [0.0] and [1.0]. *)
Lemma py_le_zero_float (x : float) :
  py_le (PyInt 0) (PyFloat x) = Ok (0 <=? x)%float.
Proof. reflexivity. Qed.

Lemma py_le_float_one (x : float) :
  py_le (PyFloat x) (PyInt 1) = Ok (x <=? 1)%float.
Proof. reflexivity. Qed.

(** The condition on an object whose three fields read as values: the
    repeated reads give the same values, and what is left is the chain of
    comparisons and the two additions. *)
Lemma validity_condition_values (j : judgment) (t i f : pyval) :
  attr_T j = Ok t -> attr_I j = Ok i -> attr_F j = Ok f ->
  validity_condition j =
    and_then (and_then (py_le (PyInt 0) t) (py_le t (PyInt 1)))
   (and_then (and_then (py_le (PyInt 0) i) (py_le i (PyInt 1)))
   (and_then (and_then (py_le (PyInt 0) f) (py_le f (PyInt 1)))
             (let? ti := py_add t i in
              let? tif := py_add ti f in
              py_le tif (PyFloat 1.0)))).
Proof.
  intros HT HI HF.
  unfold validity_condition, in_unit_interval, sum_at_most_one.
  rewrite HT, HI, HF. reflexivity.
Qed.

Lemma valid_reads_values (j : judgment) :
  _is_valid_judgment j = true ->
  exists t i f, attr_T j = Ok t /\ attr_I j = Ok i /\ attr_F j = Ok f.
Proof.
  unfold _is_valid_judgment, validity_condition, in_unit_interval, sum_at_most_one, and_then.
  destruct (attr_T j) as [t|eT]; cbn; try discriminate.
  destruct (py_le (PyInt 0) t) as [[|]|]; cbn; try discriminate.
  destruct (py_le t (PyInt 1)) as [[|]|]; cbn; try discriminate.
  destruct (attr_I j) as [i|eI]; cbn; try discriminate.
  destruct (py_le (PyInt 0) i) as [[|]|]; cbn; try discriminate.
  destruct (py_le i (PyInt 1)) as [[|]|]; cbn; try discriminate.
  destruct (attr_F j) as [f|eF]; cbn; try discriminate.
  intros _. exists t, i, f. auto.
Qed.

Lemma valid_values_iff (j : judgment) (t i f : pyval) :
  attr_T j = Ok t -> attr_I j = Ok i -> attr_F j = Ok f ->
  _is_valid_judgment j = true <-> within_bounds t i f.
Proof.
  intros HT HI HF. unfold _is_valid_judgment.
  rewrite (validity_condition_values j t i f HT HI HF).
  unfold within_bounds, in_unit, sum_at_most_one_py, and_then, rbind.
  assert (Hno : forall P : Prop, (P -> False) -> false = true <-> P)
    by (intros P HP; split; [discriminate|intros H; destruct (HP H)]).
  destruct (py_le (PyInt 0) t) as [[|]|];
    [|apply Hno; intros ((A & _) & _); discriminate A ..].
  destruct (py_le t (PyInt 1)) as [[|]|];
    [|apply Hno; intros ((_ & A) & _); discriminate A ..].
  destruct (py_le (PyInt 0) i) as [[|]|];
    [|apply Hno; intros (_ & (A & _) & _); discriminate A ..].
  destruct (py_le i (PyInt 1)) as [[|]|];
    [|apply Hno; intros (_ & (_ & A) & _); discriminate A ..].
  destruct (py_le (PyInt 0) f) as [[|]|];
    [|apply Hno; intros (_ & _ & (A & _) & _); discriminate A ..].
  destruct (py_le f (PyInt 1)) as [[|]|];
    [|apply Hno; intros (_ & _ & (_ & A) & _); discriminate A ..].
  destruct (py_add t i) as [ti|];
    [|apply Hno; intros (_ & _ & _ & ti' & tif' & A & _); discriminate A].
  destruct (py_add ti f) as [tif|] eqn:Hadd;
    [|apply Hno; intros (_ & _ & _ & ti' & tif' & [= <-] & A & _); congruence].
  destruct (py_le tif (PyFloat 1)) as [[|]|] eqn:Hle.
  - split; [intros _|reflexivity]. repeat split. exists ti, tif. auto.
  - apply Hno. intros (_ & _ & _ & ti' & tif' & [= <-] & A & B). congruence.
  - apply Hno. intros (_ & _ & _ & ti' & tif' & [= <-] & A & B). congruence.
Qed.

(** On floats the condition is the conjunction of seven IEEE comparisons,
    the last one on the rounded sum. *)
Lemma valid_floats (j : judgment) (t i f : float) :
  attr_T j = Ok (PyFloat t) -> attr_I j = Ok (PyFloat i) -> attr_F j = Ok (PyFloat f) ->
  _is_valid_judgment j =
    ((0 <=? t) && (t <=? 1) && ((0 <=? i) && (i <=? 1)) && ((0 <=? f) && (f <=? 1))
     && (t + i + f <=? 1))%float.
Proof.
  intros HT HI HF. unfold _is_valid_judgment.
  rewrite (validity_condition_values j _ _ _ HT HI HF).
  rewrite !py_le_zero_float, !py_le_float_one.
  unfold py_add, py_le, and_then, rbind.
  destruct (0 <=? t)%float, (t <=? 1)%float, (0 <=? i)%float, (i <=? 1)%float,
    (0 <=? f)%float, (f <=? 1)%float; reflexivity.
Qed.

(** On [int]s nothing is rounded: the condition is the one of exact
    arithmetic. *)
Lemma valid_ints (j : judgment) (t i f : Z) :
  attr_T j = Ok (PyInt t) -> attr_I j = Ok (PyInt i) -> attr_F j = Ok (PyInt f) ->
  _is_valid_judgment j =
    ((0 <=? t) && (t <=? 1) && ((0 <=? i) && (i <=? 1)) && ((0 <=? f) && (f <=? 1))
     && (t + i + f <=? 1))%Z.
Proof.
  intros HT HI HF. unfold _is_valid_judgment.
  rewrite (validity_condition_values j _ _ _ HT HI HF).
  unfold py_add, py_le at 1 2 3 4 5 6, and_then, rbind.
  destruct (Z.leb_spec 0 t); [|reflexivity].
  destruct (Z.leb_spec t 1); [|reflexivity].
  destruct (Z.leb_spec 0 i); [|reflexivity].
  destruct (Z.leb_spec i 1); [|reflexivity].
  destruct (Z.leb_spec 0 f); [|reflexivity].
  destruct (Z.leb_spec f 1); [|reflexivity].
  assert (Ht : t = 0%Z \/ t = 1%Z) by lia.
  assert (Hi : i = 0%Z \/ i = 1%Z) by lia.
  assert (Hf : f = 0%Z \/ f = 1%Z) by lia.
  destruct Ht as [->| ->], Hi as [->| ->], Hf as [->| ->]; vm_compute; reflexivity.
Qed.

(** The comparisons of the number model at the places where rounding
    shows: [0.5 + 0.5 + 1e-17 <= 1.0] holds, [0.34 + 0.56 + 0.1 <= 1.0] does
    not, and an [int] is compared with a float exactly. *)
Example float_comparisons :
  (0.5 + 0.5 + 1e-17 <=? 1)%float = true
  /\ (0.34 + 0.56 + 0.1 <=? 1)%float = false
  /\ py_le (PyInt (2 ^ 53 + 1)) (PyFloat 9007199254740992) = Ok false
  /\ py_le (PyFloat 9007199254740992) (PyInt (2 ^ 53 + 1)) = Ok true
  /\ py_eq (PyInt (2 ^ 53 + 1)) (PyFloat 9007199254740992) = false
  /\ py_add (PyInt (2 ^ 53 + 1)) (PyFloat 0) = Ok (PyFloat 9007199254740992)
  /\ py_add (PyInt (2 ^ 1024)) (PyFloat 0)
     = Raise (mk_exn (OtherException "OverflowError") "int too large to convert to float")
  /\ py_le (PyInt (2 ^ 1024)) (PyFloat infinity) = Ok true
  /\ py_le (PyFloat nan) (PyInt 1) = Ok false.
Proof. repeat split; vm_compute; reflexivity. Qed.

(** C6, as the code has it.  [_is_valid_judgment j] is true exactly when
    the three fields of [j] read as numbers [t], [i], [f] with
    [0 <= t <= 1], [0 <= i <= 1], [0 <= f <= 1] and [t + i + f <= 1.0],
    where comparison and sum are the ones Python computes: on floats, the
    sum is [(t + i) + f] with each addition rounded to the nearest binary64
    number, so the function is the conjunction of the seven IEEE
    comparisons.  When a field read raises, the answer is [false]: the
    function returns a Boolean on every object, no exception leaves it. *)
Theorem is_valid_judgment_spec (j : judgment) :
  (_is_valid_judgment j = true <->
     exists t i f,
       attr_T j = Ok t /\ attr_I j = Ok i /\ attr_F j = Ok f /\ within_bounds t i f)
  /\ (forall t i f : float,
        attr_T j = Ok (PyFloat t) -> attr_I j = Ok (PyFloat i) ->
        attr_F j = Ok (PyFloat f) ->
        _is_valid_judgment j =
          ((0 <=? t) && (t <=? 1) && ((0 <=? i) && (i <=? 1)) && ((0 <=? f) && (f <=? 1))
           && (t + i + f <=? 1))%float)
  /\ ((exists e, attr_T j = Raise e \/ attr_I j = Raise e \/ attr_F j = Raise e) ->
      _is_valid_judgment j = false).
Proof.
  assert (Hiff : _is_valid_judgment j = true <->
     exists t i f,
       attr_T j = Ok t /\ attr_I j = Ok i /\ attr_F j = Ok f /\ within_bounds t i f).
  { split.
    - intros Hv. destruct (valid_reads_values j Hv) as (t & i & f & HT & HI & HF).
      exists t, i, f. repeat split; try assumption;
        apply (valid_values_iff j t i f HT HI HF); exact Hv.
    - intros (t & i & f & HT & HI & HF & Hb).
      apply (valid_values_iff j t i f HT HI HF). exact Hb. }
  split; [exact Hiff|]. split; [apply valid_floats|].
  intros [e He]. apply not_true_is_false. intros Hv.
  apply Hiff in Hv. destruct Hv as (t & i & f & HT & HI & HF & _).
  destruct He as [He|[He|He]]; congruence.
Qed.

End Validity.

(** ** Strings *)

Lemma append_cons (c : Ascii.ascii) (s t : string) :
  String c s ++ t = String c (s ++ t).
Proof. reflexivity. Qed.

Lemma prefix_iff (p s : string) :
  String.prefix p s = true <-> exists post, s = p ++ post.
Proof.
  revert s. induction p as [|a p IH]; intros s; cbn.
  - destruct s; split; eauto.
  - destruct s as [|b s]; cbn.
    + split; [discriminate|]. intros [post H]. discriminate.
    + destruct (Ascii.ascii_dec a b) as [->|Hne].
      * rewrite IH. split; intros [post H]; exists post;
          rewrite append_cons in *; congruence.
      * split; [discriminate|]. intros [post H].
        rewrite append_cons in H. congruence.
Qed.

(** [str_in] is literal substring containment. *)
Lemma str_in_iff (needle hay : string) :
  str_in needle hay = true <-> exists pre post, hay = pre ++ needle ++ post.
Proof.
  induction hay as [|c hay IH].
  - change (str_in needle "") with (String.prefix needle "" || false).
    rewrite orb_false_r, prefix_iff. split.
    + intros [post H]. exists "", post. exact H.
    + intros (pre & post & H). destruct pre; [eauto|discriminate].
  - change (str_in needle (String c hay))
      with (String.prefix needle (String c hay) || str_in needle hay).
    rewrite orb_true_iff, prefix_iff, IH. split.
    + intros [[post H]|(pre & post & H)].
      * exists "", post. exact H.
      * exists (String c pre), post. rewrite append_cons. congruence.
    + intros (pre & post & H). destruct pre as [|c' pre].
      * left. eauto.
      * right. exists pre, post. rewrite append_cons in H. congruence.
Qed.

(** The match of the source, [expected_error and expected_error in
    error_msg], is the specification's [matches_expected_error]: true
    exactly for a non-empty literal substring. *)
Lemma matches_expected_error_iff (msg : string) (expected : option string) :
  matches_expected_error msg expected = true <->
  exists s, expected = Some s /\ s <> "" /\ exists pre post, msg = pre ++ s ++ post.
Proof.
  unfold matches_expected_error. destruct expected as [s|].
  - rewrite andb_true_iff, str_in_iff. split.
    + intros [Ht Hin]. exists s. repeat split; [|exact Hin].
      intros ->. discriminate.
    + intros (s' & [= <-] & Hne & Hin). split; [|exact Hin].
      destruct s; [congruence|reflexivity].
  - split; [discriminate|]. intros (s & H & _). discriminate.
Qed.

(** ** Judgment creation in [validate_vectors.py] *)

Section TestRunnerCreation.
Import TestRunner.
Context {St : Type} (sdk : sdk_module St).

(** The loop body refines the protocol of the specification: whatever the
    constructor does, the probe completes and records the verdict
    [creation_verdict] assigns, counted when it is [PASS] or [WARN]. *)
Lemma runner_creation_probe (tc : test_case) (w : world St results)
    (outcome : result judgment) (s : St) :
  NeutrosophicJudgment sdk (input_T (input tc)) (input_I (input tc))
    (input_F (input tc)) (input_provenance_chain (input tc)) (sdk_state w) = (outcome, s) ->
  judgment_creation_probe sdk tc w =
    (Ok tt, mk_world s (recorded JudgmentCreation (name tc) (creation_verdict tc outcome)
                          (creation_message tc outcome) (harness w))).
Proof.
  intros Hcall.
  unfold judgment_creation_probe, incr_total, incr_passed, append_detail.
  run. rewrite Hcall.
  unfold creation_verdict, creation_message, matches_expected_error, recorded.
  destruct outcome as [j|e]; destruct (expected_valid tc); cbn;
    rewrite ?Nat.add_0_r; try reflexivity.
  destruct (expected_error tc) as [x|]; cbn; [|reflexivity].
  destruct (truthy x && str_in x (str e)); reflexivity.
Qed.

(** The probe never raises. *)
Lemma runner_creation_probe_total (tc : test_case) (w : world St results) :
  exists w', judgment_creation_probe sdk tc w = (Ok tt, w').
Proof.
  destruct (NeutrosophicJudgment sdk (input_T (input tc)) (input_I (input tc))
    (input_F (input tc)) (input_provenance_chain (input tc)) (sdk_state w))
    as [outcome s] eqn:Hcall.
  rewrite (runner_creation_probe tc w outcome s Hcall). eauto.
Qed.

(** The loop appends one detail per vector, in the order of the list. *)
Lemma runner_creation_loop (vs : list test_case) (w : world St results) :
  exists s ds,
    validate_judgment_creation sdk vs w =
      (Ok tt, mk_world s
         (mk_results
            (mk_category
               (passed (judgment_creation (harness w)) + list_sum (map (fun d => counted (status d)) ds))
               (total (judgment_creation (harness w)) + length vs)
               (details (judgment_creation (harness w)) ++ ds))
            (fusion_operators (harness w)) (edge_cases (harness w)) (overall (harness w))))
    /\ map test ds = map name vs.
Proof.
  unfold validate_judgment_creation. revert w.
  induction vs as [|tc vs IH]; intros w.
  - exists (sdk_state w), []. cbn. split; [|reflexivity].
    unfold ret. destruct w as [s [[p t d] fo ec ov]]; cbn.
    rewrite !Nat.add_0_r, app_nil_r. reflexivity.
  - cbn [for_each]. unfold mbind, M_bind, bind at 1.
    destruct (NeutrosophicJudgment sdk (input_T (input tc)) (input_I (input tc))
      (input_F (input tc)) (input_provenance_chain (input tc)) (sdk_state w))
      as [outcome s1] eqn:Hcall.
    rewrite (runner_creation_probe tc w outcome s1 Hcall).
    destruct (IH (mk_world s1 (recorded JudgmentCreation (name tc)
                (creation_verdict tc outcome) (creation_message tc outcome) (harness w))))
      as (s & ds & Hrun & Hnames).
    exists s, (mk_detail (name tc) (creation_verdict tc outcome)
                 (creation_message tc outcome) :: ds).
    split; [|cbn; congruence].
    unfold mbind, M_bind in Hrun. rewrite Hrun. unfold recorded. cbn.
    rewrite <- !app_assoc. cbn.
    assert (Hp : forall a b c, (a + b + c = a + (b + c))%nat) by (intros; lia).
    assert (Ht : forall a n, (a + 1 + n = a + S n)%nat) by (intros; lia).
    rewrite Hp, Ht. reflexivity.
Qed.

End TestRunnerCreation.

(** ** Judgment creation in [check_conformance.py] *)

Section ValidatorCreation.
Import Validator.
Context {St : Type} (sdk : sdk_module St).

(** The loop body follows the same protocol, except on a vector for which
    the [except] clause subscripts a missing ['expected_error']: there the
    [KeyError] leaves the probe, after [total += 1] and with nothing
    printed. *)
Lemma checker_creation_probe (tc : test_case) (w : world St console)
    (outcome : result judgment) (s : St) :
  NeutrosophicJudgment sdk (input_T (input tc)) (input_I (input tc))
    (input_F (input tc)) (input_provenance_chain (input tc)) (sdk_state w) = (outcome, s) ->
  judgment_creation_probe sdk tc w =
    if lacks_needed_key tc outcome
    then (Raise (mk_exn KeyError "'expected_error'"),
          mk_world s (mk_console (stdout (harness w))
                        (mk_frame (passed (locals (harness w)))
                                  (total (locals (harness w)) + 1)
                                  (judgments (locals (harness w))))))
    else (Ok tt, mk_world s (printed (name tc) (creation_verdict tc outcome)
                               (creation_note tc outcome) (harness w))).
Proof.
  intros Hcall.
  unfold judgment_creation_probe, add_total, incr_passed, print, set_locals,
    subscript_expected_error.
  run. rewrite Hcall.
  unfold lacks_needed_key, creation_verdict, creation_note, matches_expected_error, printed.
  destruct outcome as [j|e]; destruct (expected_valid tc); cbn;
    rewrite ?Nat.add_0_r; try reflexivity.
  destruct (expected_error tc) as [x|]; cbn; [|reflexivity].
  destruct (truthy x && str_in x (str e)); reflexivity.
Qed.

(** Console lines are only ever appended, one per completed probe, and name
    the vectors in list order; a run of the loop that completes has named
    every vector and counted each of them in [total]. *)
Lemma checker_creation_loop (vs : list test_case) (w : world St console) :
  exists r s ls p t,
    for_each vs (judgment_creation_probe sdk) w =
      (r, mk_world s (mk_console (stdout (harness w) ++ ls)
                        (mk_frame p t (judgments (locals (harness w))))))
    /\ map subject ls `prefix_of` map name vs
    /\ (r = Ok tt ->
        map subject ls = map name vs /\
        p = (passed (locals (harness w)) + list_sum (map (fun l => counted (glyph l)) ls))%nat /\
        t = (total (locals (harness w)) + length vs)%nat).
Proof.
  revert w. induction vs as [|tc vs IH]; intros w.
  - exists (Ok tt), (sdk_state w), [], (passed (locals (harness w))),
      (total (locals (harness w))).
    cbn. unfold ret. destruct w as [s [out [p t js]]]; cbn.
    rewrite app_nil_r. repeat split; try reflexivity; lia.
  - cbn [for_each]. unfold mbind, M_bind, bind at 1.
    destruct (NeutrosophicJudgment sdk (input_T (input tc)) (input_I (input tc))
      (input_F (input tc)) (input_provenance_chain (input tc)) (sdk_state w))
      as [outcome s1] eqn:Hcall.
    rewrite (checker_creation_probe tc w outcome s1 Hcall).
    destruct (lacks_needed_key tc outcome).
    + eexists _, s1, [], _, _. rewrite app_nil_r. split; [reflexivity|].
      split; [apply prefix_nil|]. discriminate.
    + destruct (IH (mk_world s1 (printed (name tc) (creation_verdict tc outcome)
                (creation_note tc outcome) (harness w))))
        as (r & s & ls & p & t & Hrun & Hpre & Hok).
      exists r, s, (mk_line (creation_verdict tc outcome) (name tc)
                      (creation_note tc outcome) :: ls), p, t.
      unfold mbind, M_bind in Hrun. rewrite Hrun. unfold printed. cbn.
      rewrite <- !app_assoc. cbn. split; [reflexivity|].
      split; [apply prefix_cons; exact Hpre|].
      intros Hr. destruct (Hok Hr) as (Hn & Hp & Ht).
      unfold printed in Hp, Ht. unfold list_sum in *. cbn in Hp, Ht. cbn.
      split; [congruence|]. split; lia.
Qed.

End ValidatorCreation.

(** ** The judgment-creation verdicts *)

Section CreationVerdicts.
Import Samples.

(** The three clauses on which both harnesses agree with the protocol: a
    judgment that is constructed is [PASS] when it was expected valid and
    [FAIL] otherwise; a construction that raises on a vector expected valid
    is [FAIL]. *)
Lemma creation_verdict_table (tc : test_case) (j : judgment) (e : exn) :
  (expected_valid tc = true -> creation_verdict tc (Ok j) = PASS) /\
  (expected_valid tc = false -> creation_verdict tc (Ok j) = FAIL) /\
  (expected_valid tc = true -> creation_verdict tc (Raise e) = FAIL) /\
  (expected_valid tc = false ->
     creation_verdict tc (Raise e) =
       if matches_expected_error (str e) (expected_error tc) then PASS else WARN).
Proof.
  unfold creation_verdict. repeat split; intros ->; reflexivity.
Qed.

(** C1.  Not every probe of the judgment-creation category reaches a
    verdict.  On a vector that is expected invalid and has no
    [expected_error] key, run against an SDK that rejects the input,
    [check_conformance.py] leaves the probe with a [KeyError]: the test is
    counted in [total] and no verdict is printed.  [validate_vectors.py]
    records [WARN] for the same vector and SDK. *)
Theorem creation_probe_reaches_no_verdict :
  Validator.judgment_creation_probe strict_sdk negative_truth (Validator.initial_world tt)
    = (Raise (mk_exn KeyError "'expected_error'"),
       mk_world tt (Validator.mk_console [] (Validator.mk_frame 0 1 None)))
  /\ TestRunner.judgment_creation_probe strict_sdk negative_truth
       (TestRunner.initial_world tt)
    = (Ok tt,
       mk_world tt
         (recorded TestRunner.JudgmentCreation "negative_truth" WARN
            "Failed as expected but wrong error: T, I and F must be numbers in [0, 1]"
            TestRunner.init_results)).
Proof. split; vm_compute; reflexivity. Qed.

(** C2.  An absent [expected_error] does abort a run of
    [check_conformance.py]: with the vectors [basic_valid],
    [negative_truth] (no [expected_error] key) and [sum_exceeds_one], the
    run ends with an uncaught [KeyError] after the first verdict, and the
    third vector is never probed.  [validate_vectors.py] completes the
    category on the same vectors with verdicts [PASS], [WARN], [WARN], all
    three counted as passed. *)
Theorem missing_expected_error_aborts_run :
  Validator.main (Ok strict_sdk)
      (fixtures_of [basic_valid; negative_truth; sum_exceeds_one])
      (Validator.initial_world tt)
    = (Raise (mk_exn KeyError "'expected_error'"),
       mk_world tt (Validator.mk_console [Validator.mk_line PASS "basic_valid" ""]
                      (Validator.mk_frame 1 2 None)))
  /\ TestRunner.validate_judgment_creation strict_sdk
       [basic_valid; negative_truth; sum_exceeds_one] (TestRunner.initial_world tt)
    = (Ok tt,
       mk_world tt
         (TestRunner.mk_results
            (TestRunner.mk_category 3 3
               [TestRunner.mk_detail "basic_valid" PASS "Valid judgment created successfully";
                TestRunner.mk_detail "negative_truth" WARN
                  "Failed as expected but wrong error: T, I and F must be numbers in [0, 1]";
                TestRunner.mk_detail "sum_exceeds_one" WARN
                  "Failed as expected but wrong error: T+I+F exceeds 1.0"])
            (TestRunner.mk_category 0 0 []) (TestRunner.mk_category 0 0 []) None)).
Proof. split; vm_compute; reflexivity. Qed.

(** Where the key is present, [check_conformance.py] follows the matching
    policy: an expected text that occurs in the message gives [PASS], any
    other gives [WARN], and both count. *)
Example checker_matching_policy :
  Validator.validate_judgment_creation strict_sdk
      (Validator.mk_test_vectors (Some [sum_exceeds_one_worded; sum_exceeds_one]) None)
      (Validator.initial_world tt)
    = (Ok (2, 2),
       mk_world tt
         (Validator.mk_console
            [Validator.mk_line PASS "sum_exceeds_one_worded" "";
             Validator.mk_line WARN "sum_exceeds_one"
               " - Failed as expected but wrong error: T+I+F exceeds 1.0"]
            (Validator.mk_frame 2 2 None))).
Proof. vm_compute. reflexivity. Qed.

End CreationVerdicts.

(** ** Fusion operators *)

Section Fusion.
Context {St : Type} (sdk : sdk_module St).

(** One block of [validate_fusion_operators] in [validate_vectors.py]: an
    operator that raises, or whose result is not valid, gives [FAIL]; the
    block itself never raises. *)
Lemma runner_fusion_probe (test_name : string) (operator : St -> result judgment * St)
    (w : world St TestRunner.results) (outcome : result judgment) (s : St) :
  operator (sdk_state w) = (outcome, s) ->
  exists msg,
    TestRunner.fusion_probe test_name operator w =
      (Ok tt, mk_world s
         (recorded TestRunner.FusionOperators test_name
            (checked_verdict TestRunner._is_valid_judgment outcome) msg (harness w))).
Proof.
  intros Hcall.
  unfold TestRunner.fusion_probe, TestRunner.incr_total, TestRunner.incr_passed,
    TestRunner.append_detail.
  run. rewrite Hcall. unfold recorded, checked_verdict.
  destruct outcome as [r|e]; cbn.
  - destruct (TestRunner._is_valid_judgment r); cbn; rewrite ?Nat.add_0_r; eauto.
  - rewrite Nat.add_0_r. eauto.
Qed.

(** In [validate_vectors.py] the two test judgments are built before the
    first [try]: when the first construction raises, the exception leaves
    [validate_fusion_operators] and no probe of the category is recorded. *)
Lemma runner_fusion_escapes (w : world St TestRunner.results) (e : exn) (s : St) :
  NeutrosophicJudgment sdk (PyFloat 0.8) (PyFloat 0.2) (PyFloat 0.0) (chain_literal "test1")
    (sdk_state w) = (Raise e, s) ->
  TestRunner.validate_fusion_operators sdk w = (Raise e, mk_world s (harness w)).
Proof.
  intros Hcall. unfold TestRunner.validate_fusion_operators.
  run. rewrite Hcall. reflexivity.
Qed.

(** In [check_conformance.py] the construction is inside the first [try]:
    [validate_fusion_operators] returns for every SDK, with [total = 3]. *)
Lemma checker_fusion_returns (w : world St Validator.console) :
  exists p w',
    Validator.validate_fusion_operators sdk w = (Ok (p, 3), w') /\ p <= 3.
Proof.
  unfold Validator.validate_fusion_operators, Validator.check_result, Validator.on_error,
    Validator.enter, Validator.assign_judgments, Validator.read_judgments,
    Validator.return_counts, Validator.print, Validator.incr_passed, Validator.add_total,
    Validator.set_locals.
  run.
  repeat lookup_step.
  all: eexists _, _; split; [reflexivity|lia].
Qed.

End Fusion.

Section FusionRuns.
Import Validator Samples.

(** C4.  An exception raised by the SDK is not always contained by a probe.
    In [validate_vectors.py] the two canonical judgments of the fusion
    category are constructed outside any [try]: against an SDK whose
    constructor raises, [validate_fusion_operators] raises, and so does the
    whole run, before any fusion probe is counted.  [check_conformance.py]
    constructs them inside the first [try] and reports three [FAIL]s. *)
Theorem fusion_construction_error_aborts_run :
  TestRunner.validate_fusion_operators broken_sdk (TestRunner.initial_world tt)
    = (Raise broken_constructor, TestRunner.initial_world tt)
  /\ TestRunner.main (Ok broken_sdk) (fixtures_of []) (TestRunner.initial_world tt)
    = (Raise broken_constructor, TestRunner.initial_world tt)
  /\ validate_fusion_operators broken_sdk (initial_world tt)
    = (Ok (0, 3),
       mk_world tt
         (mk_console
            [mk_line FAIL "Conflict-aware weighted average"
               " - Error: module 'sdk' has no attribute 'NeutrosophicJudgment'";
             mk_line FAIL "Optimistic fusion"
               " - Error: cannot access local variable 'judgments' where it is not associated with a value";
             mk_line FAIL "Pessimistic fusion"
               " - Error: cannot access local variable 'judgments' where it is not associated with a value"]
            (mk_frame 0 3 None))).
Proof. repeat split; vm_compute; reflexivity. Qed.

End FusionRuns.

(** ** Provenance chain *)

Section Provenance.
Import Validator Samples.
Context {St : Type} (sdk : sdk_module St).

(** What [validate_provenance_chain] does once the judgment is constructed
    and its chain has a length: the outcome of [append] selects one of three
    paths. *)
Lemma provenance_run (w : world St console) (j : judgment) (s : St)
    (chain : chain_obj) (n : nat) :
  NeutrosophicJudgment sdk (PyFloat 0.8) (PyFloat 0.2) (PyFloat 0.0) (chain_literal "test")
    (sdk_state w) = (Ok j, s) ->
  attr_provenance_chain j = Ok chain ->
  chain_len chain = Ok n ->
  validate_provenance_chain sdk w =
    match chain_append chain with
    | Ok _ =>
        (Ok (chain_creation_count n, 2),
         provenance_report s (harness w)
           [chain_creation_line n;
            mk_line FAIL "Provenance chain immutability" " - Should be immutable"]
           (chain_creation_count n) 2)
    | Raise e =>
        if is_AttributeError_or_TypeError e then
          (Ok (chain_creation_count n + 1, 2),
           provenance_report s (harness w)
             [chain_creation_line n; mk_line PASS "Provenance chain immutability" ""]
             (chain_creation_count n + 1) 2)
        else
          (Ok (chain_creation_count n, 3),
           provenance_report s (harness w)
             [chain_creation_line n;
              mk_line FAIL "Provenance chain tests" (" - Error: " ++ str e)]
             (chain_creation_count n) 3)
    end.
Proof.
  intros Hcall Hchain Hlen.
  unfold validate_provenance_chain, enter, return_counts, print, incr_passed, add_total,
    set_locals.
  run. rewrite Hcall. cbn. rewrite Hchain. cbn. rewrite Hlen. cbn.
  unfold provenance_report, chain_creation_count, chain_creation_line.
  destruct (n =? 1)%nat; cbn; rewrite ?Hchain; cbn;
    (destruct (chain_append chain) as [[]|e]; cbn;
     [|destruct (is_AttributeError_or_TypeError e); cbn]);
    rewrite <- ?app_assoc; reflexivity.
Qed.

(** C10.  The count of the provenance category can exceed its two probes:
    when the judgment is constructed, its chain has a length, and [append]
    raises an exception that is neither an [AttributeError] nor a
    [TypeError], [validate_provenance_chain] returns [total = 3]: the outer
    handler adds 2 to a total that the first probe already incremented. *)
Theorem provenance_total_is_three (w : world St console) (j : judgment) (s : St)
    (chain : chain_obj) (n : nat) (e : exn) :
  NeutrosophicJudgment sdk (PyFloat 0.8) (PyFloat 0.2) (PyFloat 0.0) (chain_literal "test")
    (sdk_state w) = (Ok j, s) ->
  attr_provenance_chain j = Ok chain ->
  chain_len chain = Ok n ->
  chain_append chain = Raise e ->
  is_AttributeError_or_TypeError e = false ->
  exists passed w',
    validate_provenance_chain sdk w = (Ok (passed, 3), w')
    /\ total (locals (harness w')) = 3.
Proof.
  intros Hcall Hchain Hlen Happend Hclass.
  rewrite (provenance_run w j s chain n Hcall Hchain Hlen), Happend, Hclass.
  eexists _, _. split; reflexivity.
Qed.

(** C3, as the code has it.  With the judgment constructed and its chain
    measured: when [append] raises an [AttributeError] or a [TypeError] the
    immutability probe prints [PASS] and is counted as passed; when [append]
    returns, it prints [FAIL] and is not counted.  [total] is 2 in both
    cases. *)
Theorem provenance_immutability_verdict (w : world St console) (j : judgment) (s : St)
    (chain : chain_obj) (n : nat) :
  NeutrosophicJudgment sdk (PyFloat 0.8) (PyFloat 0.2) (PyFloat 0.0) (chain_literal "test")
    (sdk_state w) = (Ok j, s) ->
  attr_provenance_chain j = Ok chain ->
  chain_len chain = Ok n ->
  (forall e, chain_append chain = Raise e -> is_AttributeError_or_TypeError e = true ->
     validate_provenance_chain sdk w =
       (Ok (chain_creation_count n + 1, 2),
        provenance_report s (harness w)
          [chain_creation_line n; mk_line PASS "Provenance chain immutability" ""]
          (chain_creation_count n + 1) 2))
  /\ (chain_append chain = Ok tt ->
      validate_provenance_chain sdk w =
        (Ok (chain_creation_count n, 2),
         provenance_report s (harness w)
           [chain_creation_line n;
            mk_line FAIL "Provenance chain immutability" " - Should be immutable"]
           (chain_creation_count n) 2)).
Proof.
  intros Hcall Hchain Hlen.
  rewrite (provenance_run w j s chain n Hcall Hchain Hlen).
  split.
  - intros e -> ->. reflexivity.
  - intros ->. reflexivity.
Qed.

End Provenance.

(** The immutability probe on the three sample chains. *)
Section ProvenanceRuns.
Import Validator Samples.

(** C3 fails on the code: the chain of [guarded_sdk] refuses [append] with a
    [ValueError], yet the immutability probe does not pass.  No verdict line
    is printed for it; the outer handler prints a [FAIL] for "Provenance
    chain tests" and the category returns 1 passed out of 3. *)
Lemma append_value_error_is_not_pass :
  (exists j chain e,
     NeutrosophicJudgment guarded_sdk (PyFloat 0.8) (PyFloat 0.2) (PyFloat 0.0)
       (chain_literal "test") tt = (Ok j, tt)
     /\ attr_provenance_chain j = Ok chain
     /\ chain_append chain = Raise e)
  /\ validate_provenance_chain guarded_sdk (initial_world tt)
     = (Ok (1, 3),
        mk_world tt
          (mk_console
             [mk_line PASS "Provenance chain creation" "";
              mk_line FAIL "Provenance chain tests" " - Error: provenance chain is immutable"]
             (mk_frame 1 3 None)))
  /\ verdicts_for "Provenance chain immutability"
       (stdout (harness (snd (validate_provenance_chain guarded_sdk (initial_world tt)))))
     = [].
Proof.
  split; [|split; vm_compute; reflexivity].
  eexists _, _, _. repeat split; vm_compute; reflexivity.
Qed.

Lemma provenance_total_is_three_witness :
  exists passed w',
    validate_provenance_chain guarded_sdk (initial_world tt) = (Ok (passed, 3), w')
    /\ total (locals (harness w')) = 3.
Proof.
  apply (provenance_total_is_three guarded_sdk (initial_world tt)
           (make_judgment guarded_chain (PyFloat 0.8) (PyFloat 0.2) (PyFloat 0.0)
              (chain_literal "test"))
           tt (guarded_chain 1) 1
           (mk_exn (OtherException "ValueError") "provenance chain is immutable"));
    reflexivity.
Defined.

Lemma provenance_immutability_verdict_witness :
  validate_provenance_chain strict_sdk (initial_world tt)
    = (Ok (2, 2),
       provenance_report tt (harness (initial_world tt))
         [mk_line PASS "Provenance chain creation" "";
          mk_line PASS "Provenance chain immutability" ""] 2 2)
  /\ validate_provenance_chain mutable_sdk (initial_world tt)
    = (Ok (1, 2),
       provenance_report tt (harness (initial_world tt))
         [mk_line PASS "Provenance chain creation" "";
          mk_line FAIL "Provenance chain immutability" " - Should be immutable"] 1 2).
Proof.
  split.
  - apply (proj1 (provenance_immutability_verdict strict_sdk (initial_world tt)
             (make_judgment tuple_chain (PyFloat 0.8) (PyFloat 0.2) (PyFloat 0.0)
                (chain_literal "test"))
             tt (tuple_chain 1) 1 eq_refl eq_refl eq_refl)
           (mk_exn AttributeError "'tuple' object has no attribute 'append'"));
      reflexivity.
  - apply (proj2 (provenance_immutability_verdict mutable_sdk (initial_world tt)
             (make_judgment list_chain (PyFloat 0.8) (PyFloat 0.2) (PyFloat 0.0)
                (chain_literal "test"))
             tt (list_chain 1) 1 eq_refl eq_refl eq_refl));
      reflexivity.
Defined.

End ProvenanceRuns.

(** ** Edge cases *)

Section EdgeCases.
Import TestRunner.
Context {St : Type} (sdk : sdk_module St).

#[local] Arguments and_then : simpl never.

(** The check of the single-judgment probe,
    [self._is_valid_judgment(result) and result.T == 0.8]. *)
Lemma single_check_true (r : judgment) :
  and_then (Ok (_is_valid_judgment r))
           (let? t := attr_T r in Ok (py_eq t (PyFloat 0.8))) = Ok true
  <-> _is_valid_judgment r = true
      /\ exists t, attr_T r = Ok t /\ py_eq t (PyFloat 0.8) = true.
Proof.
  unfold and_then, rbind. split.
  - destruct (_is_valid_judgment r) eqn:Hv; [|discriminate].
    destruct (valid_reads_values r Hv) as (t & i & f & HT & _). rewrite HT.
    intros [= Heq]. split; [reflexivity|]. exists t. split; [reflexivity|exact Heq].
  - intros [-> (t & -> & Heq)]. rewrite Heq. reflexivity.
Qed.

(** C5, as the code has it.  The single-judgment probe always completes with
    one detail, [PASS] or [FAIL]; it is [PASS] exactly when the judgment is
    constructed, the weighted average of that one judgment with weights
    [[1.0]] returns a result that [_is_valid_judgment] accepts, and the [T]
    of the result equals 0.8 ([==] of Python against the float literal).
    [I] and [F] of the result are not compared with anything. *)
Theorem single_judgment_probe_passes_iff (w : world St results) :
  exists s v msg,
    single_judgment_probe sdk w =
      (Ok tt, mk_world s (recorded EdgeCases "single_judgment_fusion" v msg (harness w)))
    /\ (v = PASS \/ v = FAIL)
    /\ (v = PASS <->
        exists j s1 r s2 t,
          NeutrosophicJudgment sdk (PyFloat 0.8) (PyFloat 0.2) (PyFloat 0.0)
            (chain_literal "test") (sdk_state w) = (Ok j, s1)
          /\ Fuse.conflict_aware_weighted_average (fuse sdk) [j] [PyFloat 1.0] s1
             = (Ok r, s2)
          /\ _is_valid_judgment r = true
          /\ attr_T r = Ok t /\ py_eq t (PyFloat 0.8) = true).
Proof.
  unfold single_judgment_probe, incr_total, incr_passed, append_detail.
  run. unfold recorded.
  destruct (NeutrosophicJudgment sdk _ _ _ _ (sdk_state w)) as [[j|e] s1] eqn:Hnew; cbn.
  2:{ eexists s1, FAIL, _. cbn. rewrite Nat.add_0_r. split; [reflexivity|].
      split; [auto|]. split; [discriminate|].
      intros (j & s1' & r & s2 & t & [=] & _). }
  destruct (Fuse.conflict_aware_weighted_average (fuse sdk) [j] _ s1)
    as [[r|e] s2] eqn:Hfuse; cbn.
  2:{ eexists s2, FAIL, _. cbn. rewrite Nat.add_0_r. split; [reflexivity|].
      split; [auto|]. split; [discriminate|].
      intros (j' & s1' & r & s2' & t & [= <- <-] & Hf & _). congruence. }
  pose proof (single_check_true r) as Hcheck.
  destruct (and_then (Ok (_is_valid_judgment r)) _) as [[|]|e] eqn:Hc; cbn.
  - eexists s2, PASS, _. cbn. split; [reflexivity|]. split; [auto|].
    split; [|reflexivity]. intros _.
    destruct (proj1 Hcheck eq_refl) as (Hv & t & HT & Ht). eauto 10.
  - eexists s2, FAIL, _. cbn. rewrite Nat.add_0_r. split; [reflexivity|].
    split; [auto|]. split; [discriminate|].
    intros (j' & s1' & r' & s2' & t & [= <- <-] & Hf & Hv & HT & Ht).
    rewrite Hfuse in Hf. injection Hf as <- <-.
    assert (Ok false = Ok true) as [=]. { apply Hcheck. eauto. }
  - eexists s2, FAIL, _. cbn. rewrite Nat.add_0_r. split; [reflexivity|].
    split; [auto|]. split; [discriminate|].
    intros (j' & s1' & r' & s2' & t & [= <- <-] & Hf & Hv & HT & Ht).
    rewrite Hfuse in Hf. injection Hf as <- <-.
    assert (@Raise bool e = Ok true) as [=]. { apply Hcheck. eauto. }
Qed.

(** The zero-weights probe records [FAIL] as soon as the first of its two
    constructions raises. *)
Lemma zero_weights_probe_rejected (w : world St results) (e : exn) (s : St) :
  NeutrosophicJudgment sdk (PyFloat 0.9) (PyFloat 0.1) (PyFloat 0.9) (chain_literal "test1")
    (sdk_state w) = (Raise e, s) ->
  zero_weights_probe sdk w =
    (Ok tt, mk_world s (recorded EdgeCases "zero_weights_fallback" FAIL
                          ("Error: " ++ str e) (harness w))).
Proof.
  intros Hcall. unfold zero_weights_probe, incr_total, incr_passed, append_detail.
  run. rewrite Hcall. unfold recorded. cbn. rewrite Nat.add_0_r. reflexivity.
Qed.

(** Both edge-case probes contain whatever the SDK raises:
    [validate_edge_cases] returns for every SDK and counts two tests. *)
Lemma runner_edge_cases_return (w : world St results) :
  exists w',
    validate_edge_cases sdk w = (Ok tt, w')
    /\ total (edge_cases (harness w')) = total (edge_cases (harness w)) + 2.
Proof.
  unfold validate_edge_cases, single_judgment_probe, zero_weights_probe, incr_total,
    incr_passed, append_detail.
  run.
  repeat first
    [ step
    | match goal with
      | |- context [and_then ?a ?b] => destruct (and_then a b) as [[|]|?]; cbn
      | |- context [_is_valid_judgment ?r] => destruct (_is_valid_judgment r); cbn
      end ].
  all: eexists; split; [reflexivity|cbn; lia].
Qed.

End EdgeCases.

Section EdgeCaseRuns.
Import TestRunner Samples.

(** C5 fails on the code: [truth_only_sdk] returns, for the single judgment
    (0.8, 0.2, 0.0), a result (0.8, 0, 0).  The result is valid and its [T]
    is 0.8, so the probe records [PASS], although the [I] of the result
    differs from the [I] of the input. *)
Lemma single_judgment_pass_with_other_I :
  single_judgment_probe truth_only_sdk (initial_world tt)
    = (Ok tt,
       mk_world tt (recorded EdgeCases "single_judgment_fusion" PASS
                      "Single judgment fusion works correctly" init_results))
  /\ exists j r,
       NeutrosophicJudgment truth_only_sdk (PyFloat 0.8) (PyFloat 0.2) (PyFloat 0.0)
         (chain_literal "test") tt = (Ok j, tt)
       /\ Fuse.conflict_aware_weighted_average (fuse truth_only_sdk) [j] [PyFloat 1.0] tt
          = (Ok r, tt)
       /\ attr_I j = Ok (PyFloat 0.2)
       /\ attr_I r = Ok (PyFloat 0.0)
       /\ py_eq (PyFloat 0.0) (PyFloat 0.2) = false.
Proof.
  split; [vm_compute; reflexivity|].
  eexists _, _. repeat split; vm_compute; reflexivity.
Qed.

(** The validating sample constructor rejects every triple whose sum
    exceeds one. *)
Lemma strict_sdk_rejects_excess_sum : rejects_excess_sum strict_sdk.
Proof.
  intros t i f pc s Hsum. cbn. unfold strict_constructor, as_float, sum_exceeds.
  rewrite Hsum. destruct (in_range t i f); cbn; eauto.
Qed.

End EdgeCaseRuns.

Section ZeroWeights.
Import TestRunner Samples.
Context {St : Type} (sdk : sdk_module St).

(** C9.  The two judgments the zero-weights probe asks the SDK to construct
    have components (0.9, 0.1, 0.9) and (0.8, 0.2, 0.8), in that order;
    both sums exceed one, as floats and as decimals, and an object with
    these components fails [_is_valid_judgment].  Hence, against every SDK whose constructor rejects
    a sum above one, the probe records [FAIL] and counts the test without
    counting a pass. *)
Theorem zero_weights_probe_inputs_invalid (w : world St results) :
  sdk_state (snd (zero_weights_probe recording_sdk (initial_world [])))
    = [(PyFloat 0.9, PyFloat 0.1, PyFloat 0.9); (PyFloat 0.8, PyFloat 0.2, PyFloat 0.8)]
  /\ ((1 <? 0.9 + 0.1 + 0.9)%float = true /\ (1 <? 0.8 + 0.2 + 0.8)%float = true)
  /\ ((1 < 0.9 + 0.1 + 0.9)%Q /\ (1 < 0.8 + 0.2 + 0.8)%Q)
  /\ (forall pc,
        _is_valid_judgment
          (mk_judgment (Ok (PyFloat 0.9)) (Ok (PyFloat 0.1)) (Ok (PyFloat 0.9)) pc) = false
        /\ _is_valid_judgment
          (mk_judgment (Ok (PyFloat 0.8)) (Ok (PyFloat 0.2)) (Ok (PyFloat 0.8)) pc) = false)
  /\ (rejects_excess_sum sdk ->
      exists e s,
        zero_weights_probe sdk w =
          (Ok tt, mk_world s (recorded EdgeCases "zero_weights_fallback" FAIL
                                ("Error: " ++ str e) (harness w)))).
Proof.
  split; [vm_compute; reflexivity|].
  split; [split; vm_compute; reflexivity|].
  split; [split; reflexivity|].
  split; [intros pc; split; vm_compute; reflexivity|].
  intros Hrej.
  destruct (Hrej 0.9%float 0.1%float 0.9%float (chain_literal "test1") (sdk_state w) eq_refl)
    as (e & s & Hcall).
  exists e, s. apply zero_weights_probe_rejected. exact Hcall.
Qed.

End ZeroWeights.

Section ZeroWeightsRuns.
Import TestRunner Samples.

Lemma zero_weights_probe_inputs_invalid_witness :
  exists e s,
    zero_weights_probe strict_sdk (initial_world tt) =
      (Ok tt, mk_world s (recorded EdgeCases "zero_weights_fallback" FAIL
                            ("Error: " ++ str e) (harness (initial_world tt)))).
Proof.
  apply (proj2 (proj2 (proj2 (proj2
           (zero_weights_probe_inputs_invalid strict_sdk (initial_world tt)))))).
  exact strict_sdk_rejects_excess_sum.
Defined.

End ZeroWeightsRuns.

(** ** Scoring and exit status *)

Section Scoring.
#[local] Open Scope Q_scope.

Lemma score_of_zero_total (p : nat) : score_of p 0 = 0.
Proof. reflexivity. Qed.



(** What the Boolean check [exit_codes_agree_upto] establishes. *)
Lemma exit_codes_agree_upto_spec (n p t : nat) :
  exit_codes_agree_upto n = true ->
  (p <= t)%nat -> (t <= n)%nat ->
  exit_code_binary64 (score_binary64 p t) = exit_code_of (score_of p t).
Proof.
  unfold exit_codes_agree_upto. intros Hall Hp Ht.
  rewrite forallb_forall in Hall.
  assert (Hthis : exit_codes_agree t = true) by (apply Hall, in_seq; lia).
  unfold exit_codes_agree in Hthis. rewrite forallb_forall in Hthis.
  apply Z.eqb_eq. apply Hthis, in_seq. lia.
Qed.

Lemma exit_codes_agree_upto_200 : exit_codes_agree_upto 200 = true.
Proof. vm_compute. reflexivity. Qed.

Import TestRunner.
Context {St : Type} (sdk : sdk_module St).

(** [check_conformance.py] computes the overall entry and the exit status
    with the same two expressions. *)
Lemma checker_score_and_exit_status (tv : Validator.test_vectors)
    (w w' : world St Validator.console) (r : Validator.results) :
  Validator.run_validation (Ok sdk) tv w = (Ok (Validator.RunResults r), w') ->
  Validator.score (Validator.overall r) =
    score_of (Validator.overall_passed (Validator.overall r))
             (Validator.overall_total (Validator.overall r))
  /\ Validator.overall_total (Validator.overall r) =
       (Validator.cat_total (Validator.judgment_creation r)
        + Validator.cat_total (Validator.fusion_operators r)
        + Validator.cat_total (Validator.provenance_chain r))%nat
  /\ Validator.overall_passed (Validator.overall r) =
       (Validator.cat_passed (Validator.judgment_creation r)
        + Validator.cat_passed (Validator.fusion_operators r)
        + Validator.cat_passed (Validator.provenance_chain r))%nat.
Proof.
  cbn [Validator.run_validation].
  unfold Validator.run_categories, bind, ret.
  destruct (Validator.validate_judgment_creation sdk tv w) as [[jc|e1] w1]; [|discriminate].
  destruct (Validator.validate_fusion_operators sdk w1) as [[fo|e2] w2]; [|discriminate].
  destruct (Validator.validate_provenance_chain sdk w2) as [[pc|e3] w3]; [|discriminate].
  intros [= <- <-]. cbn. repeat split; reflexivity.
Qed.

End Scoring.

(** ** Fixture loading *)

Section Fixtures.
Context {St : Type} (sdk : sdk_module St).

Lemma load_if_exists_failure {A} (f : fixture_file A) (e : exn) :
  load_failure f e -> load_if_exists f = Raise e.
Proof.
  intros [(why & -> & ->)|(d & -> & Hd & ->)]; cbn; [reflexivity|].
  unfold subscript_test_vectors. rewrite Hd. reflexivity.
Qed.




(** The vectors of [check_conformance.py] are probed in list order: the
    console names a prefix of the list, the whole list when the category
    returns. *)
Lemma checker_creation_order (tv : Validator.test_vectors) (w : world St Validator.console) :
  exists r s ls,
    Validator.validate_judgment_creation sdk tv w = (r, s)
    /\ Validator.stdout (harness s) = (Validator.stdout (harness w) ++ ls)%list
    /\ map Validator.subject ls `prefix_of` map name (Validator.get_judgments tv)
    /\ (forall counts, r = Ok counts ->
          map Validator.subject ls = map name (Validator.get_judgments tv)
          /\ counts = (list_sum (map (fun l => counted (Validator.glyph l)) ls),
                       length (Validator.get_judgments tv))).
Proof.
  unfold Validator.validate_judgment_creation, Validator.enter, Validator.return_counts,
    Validator.set_locals.
  unfold mbind, M_bind, bind, update, modify, current, ret. cbn.
  destruct (checker_creation_loop sdk (Validator.get_judgments tv)
              (mk_world (sdk_state w)
                 (Validator.mk_console (Validator.stdout (harness w))
                    (Validator.mk_frame 0 0 None))))
    as (r & s & ls & p & t & Hrun & Hpre & Hok).
  rewrite Hrun. cbn in *.
  destruct r as [[]|e]; eexists _, _, ls; (split; [reflexivity|]); cbn.
  - split; [reflexivity|]. split; [exact Hpre|].
    intros counts [= <-]. destruct (Hok eq_refl) as (Hn & -> & ->). auto.
  - split; [reflexivity|]. split; [exact Hpre|]. discriminate.
Qed.

End Fixtures.

(** ** The theorems at concrete inputs *)

Section Runs.
Import Samples.

Lemma is_valid_judgment_spec_witness :
  TestRunner._is_valid_judgment seven_two_one = true
  /\ TestRunner._is_valid_judgment half_half_tiny
     = ((0 <=? 0.5) && (0.5 <=? 1) && ((0 <=? 0.5) && (0.5 <=? 1))
        && ((0 <=? 1e-17) && (1e-17 <=? 1)) && (0.5 + 0.5 + 1e-17 <=? 1))%float
  /\ TestRunner._is_valid_judgment no_T = false.
Proof.
  split; [|split].
  - apply (proj1 (is_valid_judgment_spec seven_two_one)).
    exists (PyFloat 0.7), (PyFloat 0.2), (PyFloat 0.1).
    repeat split; try reflexivity.
    exists (PyFloat (0.7 + 0.2)), (PyFloat (0.7 + 0.2 + 0.1)).
    repeat split; reflexivity.
  - apply (proj1 (proj2 (is_valid_judgment_spec half_half_tiny))); reflexivity.
  - apply (proj2 (proj2 (is_valid_judgment_spec no_T))).
    exists (mk_exn AttributeError "'Result' object has no attribute 'T'").
    left. reflexivity.
Defined.

(** C6 fails on the code: the fields 0.5, 0.5 and 1e-17 are three numbers
    of the unit interval whose sum exceeds one, so the condition of the
    specification does not hold of them; yet [_is_valid_judgment] returns
    true, because the float sum [(0.5 + 0.5) + 1e-17] is rounded to 1.0. *)
Lemma rounded_sum_is_accepted :
  TestRunner._is_valid_judgment half_half_tiny = true
  /\ (0.5 + 0.5 + 1e-17 =? 1)%float = true
  /\ exists t i f : Q,
       (rbind (attr_T half_half_tiny) (fun x => Ok (exact_value x)) = Ok (Some t)
        /\ rbind (attr_I half_half_tiny) (fun x => Ok (exact_value x)) = Ok (Some i)
        /\ rbind (attr_F half_half_tiny) (fun x => Ok (exact_value x)) = Ok (Some f))
       /\ (t == 1 # 2)%Q /\ (i == 1 # 2)%Q /\ (0 < f)%Q
       /\ (1 < t + i + f)%Q
       /\ ~ within_bounds_exact t i f.
Proof.
  split; [vm_compute; reflexivity|]. split; [vm_compute; reflexivity|].
  eexists _, _, _. split; [repeat split; vm_compute; reflexivity|].
  split; [reflexivity|]. split; [reflexivity|]. split; [reflexivity|].
  split; [reflexivity|].
  intros (_ & _ & _ & Hsum). revert Hsum. apply Qlt_not_le. reflexivity.
Qed.

(** The [int] components (1, 0, 0) are compared and added exactly. *)
Example int_components_are_exact :
  TestRunner._is_valid_judgment one_zero_zero = true
  /\ TestRunner._is_valid_judgment
       (make_judgment tuple_chain (PyInt 1) (PyInt 1) (PyInt 0) entry) = false.
Proof. split; vm_compute; reflexivity. Qed.

(** The sample run above: six of seven probes pass, the score is 600/7 and
    the exit status is 1. *)
Example strict_sdk_exit_status :
  TestRunner.main (Ok strict_sdk) (fixtures_of [basic_valid; sum_exceeds_one])
    (TestRunner.initial_world tt)
  = (Ok 1%Z,
     mk_world tt
       (TestRunner.mk_results
          (TestRunner.mk_category 2 2
             [TestRunner.mk_detail "basic_valid" PASS "Valid judgment created successfully";
              TestRunner.mk_detail "sum_exceeds_one" WARN
                "Failed as expected but wrong error: T+I+F exceeds 1.0"])
          (TestRunner.mk_category 3 3
             [TestRunner.mk_detail "conflict_aware_weighted_average" PASS "Valid fusion result";
              TestRunner.mk_detail "optimistic_fusion" PASS "Valid fusion result";
              TestRunner.mk_detail "pessimistic_fusion" PASS "Valid fusion result"])
          (TestRunner.mk_category 1 2
             [TestRunner.mk_detail "single_judgment_fusion" PASS
                "Single judgment fusion works correctly";
              TestRunner.mk_detail "zero_weights_fallback" FAIL "Error: T+I+F exceeds 1.0"])
          (Some (TestRunner.mk_overall 6 7 (score_of 6 7))))).
Proof. vm_compute. reflexivity. Qed.

(** Vectors are probed in list order and a repeated vector is probed again:
    the recording SDK sees the three constructions one after the other, and
    three details are stored. *)
Example vectors_in_file_order :
  let w' := snd (TestRunner.validate_judgment_creation recording_sdk
                   [basic_valid; basic_valid; sum_exceeds_one] (TestRunner.initial_world [])) in
  sdk_state w' = [(PyFloat 0.7, PyFloat 0.2, PyFloat 0.1); (PyFloat 0.7, PyFloat 0.2, PyFloat 0.1);
                  (PyFloat 0.6, PyFloat 0.5, PyFloat 0.1)]
  /\ map TestRunner.test (TestRunner.details (TestRunner.judgment_creation (harness w')))
     = ["basic_valid"; "basic_valid"; "sum_exceeds_one"].
Proof. split; vm_compute; reflexivity. Qed.

End Runs.

(** * Reports and complete runs *)

(** ** What [validate_vectors.py] does to [self.results] *)

Section RunnerReport.
Import TestRunner.
Context {St : Type} (sdk : sdk_module St).

#[local] Arguments and_then : simpl never.

Lemma reported_trans (r1 r2 r3 : results) :
  reported r1 r2 -> reported r2 r3 -> reported r1 r3.
Proof.
  intros H12 H23. induction H23 as [|r3 c t v msg _ IH].
  - exact H12.
  - apply reported_probe. exact IH.
Qed.

Lemma tally_snoc (ds : list detail) (d : detail) :
  tally (ds ++ [d]) = tally ds + counted (status d).
Proof.
  unfold tally. rewrite map_app, list_sum_app. cbn. lia.
Qed.

Lemma consistent_recorded (c : category) (t : string) (v : verdict) (msg : string)
    (r : results) :
  report_consistent r -> report_consistent (recorded c t v msg r).
Proof.
  unfold report_consistent, consistent, recorded.
  intros ((Hjt & Hjp) & (Hft & Hfp) & (Het & Hep)).
  destruct c; cbn -[tally]; rewrite ?length_app, ?tally_snoc; cbn -[tally];
    repeat split; lia.
Qed.

Lemma reported_consistent (r r' : results) :
  reported r r' -> report_consistent r -> report_consistent r'.
Proof.
  intros Hrep Hr. induction Hrep as [|r' c t v msg _ IH].
  - exact Hr.
  - apply consistent_recorded. exact IH.
Qed.

(** [recorded] keeps the ['overall'] entry and the categories other than
    its own. *)
Lemma reported_overall (r r' : results) :
  reported r r' -> overall r' = overall r.
Proof.
  intros Hrep. induction Hrep as [|r' c t v msg _ IH]; [reflexivity|].
  rewrite <- IH. destruct c; reflexivity.
Qed.

Lemma runner_creation_reported (vs : list test_case) (w : world St results) :
  exists w',
    validate_judgment_creation sdk vs w = (Ok tt, w')
    /\ reported (harness w) (harness w').
Proof.
  unfold validate_judgment_creation. revert w.
  induction vs as [|tc vs IH]; intros w.
  - exists w. split; [reflexivity|apply reported_none].
  - cbn [for_each]. unfold mbind, M_bind, bind at 1.
    destruct (NeutrosophicJudgment sdk (input_T (input tc)) (input_I (input tc))
      (input_F (input tc)) (input_provenance_chain (input tc)) (sdk_state w))
      as [outcome s1] eqn:Hcall.
    rewrite (runner_creation_probe sdk tc w outcome s1 Hcall).
    destruct (IH (mk_world s1 (recorded JudgmentCreation (name tc)
                (creation_verdict tc outcome) (creation_message tc outcome) (harness w))))
      as (w' & Hrun & Hrep).
    exists w'. unfold mbind, M_bind in Hrun. split; [exact Hrun|].
    eapply reported_trans; [|exact Hrep].
    apply reported_probe, reported_none.
Qed.

(** The shape of [validate_fusion_operators]: either a construction raised
    and nothing was recorded, or the three probes were recorded in the order
    of the source, none with [WARN]. *)
Lemma runner_fusion_shape (w : world St results) :
  (exists e s, validate_fusion_operators sdk w = (Raise e, mk_world s (harness w)))
  \/ (exists s v1 m1 v2 m2 v3 m3,
        validate_fusion_operators sdk w =
          (Ok tt, mk_world s
             (recorded FusionOperators "pessimistic_fusion" v3 m3
               (recorded FusionOperators "optimistic_fusion" v2 m2
                 (recorded FusionOperators "conflict_aware_weighted_average" v1 m1
                    (harness w)))))
        /\ v1 <> WARN /\ v2 <> WARN /\ v3 <> WARN).
Proof.
  unfold validate_fusion_operators, fusion_probe, incr_total, incr_passed, append_detail.
  run. unfold recorded.
  step; [step|]; [| left; eexists _, _; reflexivity ..].
  right.
  repeat first
    [ step
    | match goal with
      | |- context [_is_valid_judgment ?r] => destruct (_is_valid_judgment r); cbn
      end ].
  all: match goal with
       | |- context [(Ok tt, mk_world ?s (mk_results _ (mk_category _ _
                       (((_ ++ [mk_detail _ ?v1 ?m1]) ++ [mk_detail _ ?v2 ?m2])
                          ++ [mk_detail _ ?v3 ?m3])) _ _))] =>
           exists s, v1, m1, v2, m2, v3, m3
       end.
  all: cbn; split; [rewrite ?Nat.add_0_r; reflexivity|repeat split; discriminate].
Qed.

(** The shape of [validate_edge_cases]: it returns, and has recorded its two
    probes in the order of the source, none with [WARN]. *)
Lemma runner_edge_shape (w : world St results) :
  exists s v1 m1 v2 m2,
    validate_edge_cases sdk w =
      (Ok tt, mk_world s
         (recorded EdgeCases "zero_weights_fallback" v2 m2
           (recorded EdgeCases "single_judgment_fusion" v1 m1 (harness w))))
    /\ v1 <> WARN /\ v2 <> WARN
    /\ (rejects_excess_sum sdk -> v2 = FAIL).
Proof.
  unfold validate_edge_cases, single_judgment_probe, zero_weights_probe, incr_total,
    incr_passed, append_detail.
  run. unfold recorded.
  repeat first
    [ step
    | match goal with
      | |- context [and_then ?a ?b] => destruct (and_then a b) as [[|]|?]; cbn
      | |- context [_is_valid_judgment ?r] => destruct (_is_valid_judgment r); cbn
      end ].
  all: match goal with
       | |- context [(Ok tt, mk_world ?s (mk_results _ _ (mk_category _ _
                       ((_ ++ [mk_detail _ ?v1 ?m1]) ++ [mk_detail _ ?v2 ?m2])) _))] =>
           exists s, v1, m1, v2, m2
       end.
  all: cbn; split; [rewrite ?Nat.add_0_r; reflexivity|].
  all: split; [discriminate|split; [discriminate|]].
  all: intros Hrej; try reflexivity; exfalso.
  all: match goal with
       | H : NeutrosophicJudgment sdk (PyFloat 0.9) _ _ _ ?s0 = (Ok _, _) |- _ =>
           destruct (Hrej 0.9%float 0.1%float 0.9%float (chain_literal "test1") s0 eq_refl)
             as (? & ? & Hr);
           rewrite Hr in H; discriminate H
       end.
Qed.

End RunnerReport.

(** ** Complete runs of [validate_vectors.py] *)

Section RunnerRuns.
Import TestRunner.
Context {St : Type} (sdk : sdk_module St).

#[local] Arguments tally : simpl never.

(** Whatever happens during the categories, [self.results] only changes by
    recorded probes, up to the ['overall'] entry set at the end. *)
Lemma run_categories_reported (fx : fixtures) (w : world St results) :
  exists r',
    reported (harness w) r'
    /\ judgment_creation (harness (snd (run_categories sdk fx w))) = judgment_creation r'
    /\ fusion_operators (harness (snd (run_categories sdk fx w))) = fusion_operators r'
    /\ edge_cases (harness (snd (run_categories sdk fx w))) = edge_cases r'.
Proof.
  unfold run_categories, mbind, M_bind, bind, eval, update, modify, current, ret.
  destruct (load_test_vectors fx) as [tv|e]; cbn.
  2:{ exists (harness w). repeat split. apply reported_none. }
  assert (Hjc : exists w1,
            match tv_judgment_creation tv with
            | Some vs => validate_judgment_creation sdk vs
            | None => fun w0 => (Ok tt, w0)
            end w = (Ok tt, w1) /\ reported (harness w) (harness w1)).
  { destruct (tv_judgment_creation tv) as [vs|].
    - apply runner_creation_reported.
    - exists w. split; [reflexivity|apply reported_none]. }
  destruct Hjc as (w1 & -> & Hrep1).
  destruct (runner_fusion_shape sdk w1)
    as [(e & s & ->)|(s & v1 & m1 & v2 & m2 & v3 & m3 & -> & _)]; cbn.
  { exists (harness w1). repeat split. exact Hrep1. }
  match goal with
  | |- context [validate_edge_cases sdk ?w2] =>
      destruct (runner_edge_shape sdk w2) as (s' & u1 & n1 & u2 & n2 & -> & _)
  end.
  cbn.
  exists (recorded EdgeCases "zero_weights_fallback" u2 n2
           (recorded EdgeCases "single_judgment_fusion" u1 n1
             (recorded FusionOperators "pessimistic_fusion" v3 m3
               (recorded FusionOperators "optimistic_fusion" v2 m2
                 (recorded FusionOperators "conflict_aware_weighted_average" v1 m1
                    (harness w1)))))).
  split; [|repeat split; reflexivity].
  repeat apply reported_probe. exact Hrep1.
Qed.

(** The results a complete run returns, category by category. *)
Lemma run_categories_shape (fx : fixtures) (w w' : world St results) (r : results) :
  run_categories sdk fx w = (Ok (RunResults r), w') ->
  exists tv ds v1 m1 v2 m2 v3 m3 u1 n1 u2 n2,
    load_test_vectors fx = Ok tv
    /\ map test ds = map name (loaded_vectors tv)
    /\ judgment_creation r =
         mk_category (passed (judgment_creation (harness w)) + tally ds)
                     (total (judgment_creation (harness w)) + length (loaded_vectors tv))
                     (details (judgment_creation (harness w)) ++ ds)
    /\ fusion_operators r =
         mk_category
           (passed (fusion_operators (harness w)) + counted v1 + counted v2 + counted v3)
           (total (fusion_operators (harness w)) + 3)
           (details (fusion_operators (harness w)) ++
              [mk_detail "conflict_aware_weighted_average" v1 m1;
               mk_detail "optimistic_fusion" v2 m2;
               mk_detail "pessimistic_fusion" v3 m3])
    /\ edge_cases r =
         mk_category
           (passed (edge_cases (harness w)) + counted u1 + counted u2)
           (total (edge_cases (harness w)) + 2)
           (details (edge_cases (harness w)) ++
              [mk_detail "single_judgment_fusion" u1 n1;
               mk_detail "zero_weights_fallback" u2 n2])
    /\ (v1 <> WARN /\ v2 <> WARN /\ v3 <> WARN /\ u1 <> WARN /\ u2 <> WARN)
    /\ (rejects_excess_sum sdk -> u2 = FAIL).
Proof.
  unfold run_categories, mbind, M_bind, bind, eval, update, modify, current, ret.
  destruct (load_test_vectors fx) as [tv|e]; cbn; [|discriminate].
  assert (Hjc : exists s ds,
            match tv_judgment_creation tv with
            | Some vs => validate_judgment_creation sdk vs
            | None => fun w0 => (Ok tt, w0)
            end w =
            (Ok tt, mk_world s
               (mk_results
                  (mk_category (passed (judgment_creation (harness w)) + tally ds)
                     (total (judgment_creation (harness w)) + length (loaded_vectors tv))
                     (details (judgment_creation (harness w)) ++ ds))
                  (fusion_operators (harness w)) (edge_cases (harness w))
                  (overall (harness w))))
            /\ map test ds = map name (loaded_vectors tv)).
  { unfold loaded_vectors. destruct (tv_judgment_creation tv) as [vs|]; cbn.
    - apply runner_creation_loop.
    - exists (sdk_state w), []. split; [|reflexivity].
      destruct w as [s [[p t d] fo ec ov]]; cbn.
      unfold tally. cbn. rewrite !Nat.add_0_r, app_nil_r. reflexivity. }
  destruct Hjc as (s1 & ds & -> & Hnames).
  match goal with
  | |- context [validate_fusion_operators sdk ?w1] =>
      destruct (runner_fusion_shape sdk w1)
        as [(e & s & ->)|(s & v1 & m1 & v2 & m2 & v3 & m3 & -> & Hv1 & Hv2 & Hv3)]
  end; cbn; [discriminate|].
  match goal with
  | |- context [validate_edge_cases sdk ?w2] =>
      destruct (runner_edge_shape sdk w2)
        as (s' & u1 & n1 & u2 & n2 & -> & Hu1 & Hu2 & Hrej)
  end.
  cbn. intros [= <- <-].
  exists tv, ds, v1, m1, v2, m2, v3, m3, u1, n1, u2, n2. cbn.
  rewrite <- !app_assoc. cbn.
  repeat split; try assumption; f_equal; lia.
Qed.

(** A run of [validate_vectors.py] that returns its results has stored
    under ['overall'] the sums over [self.results.values()]: the three
    categories and what a previous run on the same validator had left
    under ['overall']. *)
Lemma run_categories_overall (fx : fixtures) (w w' : world St results) (r : results) :
  run_categories sdk fx w = (Ok (RunResults r), w') ->
  r = harness w' /\
  overall r =
    Some (mk_overall
            (passed (judgment_creation r) + passed (fusion_operators r) + passed (edge_cases r)
             + carried_passed (harness w))
            (total (judgment_creation r) + total (fusion_operators r) + total (edge_cases r)
             + carried_total (harness w))
            (score_of
               (passed (judgment_creation r) + passed (fusion_operators r)
                + passed (edge_cases r) + carried_passed (harness w))
               (total (judgment_creation r) + total (fusion_operators r)
                + total (edge_cases r) + carried_total (harness w)))).
Proof.
  unfold run_categories, mbind, M_bind, bind, eval, update, modify, current, ret.
  destruct (load_test_vectors fx) as [tv|e]; cbn; [|discriminate].
  assert (Hjc : exists w1,
            match tv_judgment_creation tv with
            | Some vs => validate_judgment_creation sdk vs
            | None => fun w0 => (Ok tt, w0)
            end w = (Ok tt, w1) /\ overall (harness w1) = overall (harness w)).
  { destruct (tv_judgment_creation tv) as [vs|].
    - destruct (runner_creation_loop sdk vs w) as (s & ds & -> & _).
      eexists. split; reflexivity.
    - exists w. split; reflexivity. }
  destruct Hjc as (w1 & -> & Hov1).
  destruct (runner_fusion_shape sdk w1)
    as [(e & s & ->)|(s & v1 & m1 & v2 & m2 & v3 & m3 & -> & _)]; cbn; [discriminate|].
  match goal with
  | |- context [validate_edge_cases sdk ?w2] =>
      destruct (runner_edge_shape sdk w2) as (s' & u1 & n1 & u2 & n2 & -> & _)
  end.
  cbn. intros [= <- <-].
  unfold sum_passed, sum_total, carried_passed, carried_total. cbn.
  rewrite Hov1. split; reflexivity.
Qed.


End RunnerRuns.

(** ** The score and the exit status in terms of the counts *)

Section ScoreArithmetic.
#[local] Open Scope Q_scope.

(** For a positive total, the score compares with a percentage [k] as
    [k * total] compares with [100 * passed]. *)
Lemma score_of_ge (k : Z) (p t : nat) :
  t <> 0%nat ->
  Qle_bool (inject_Z k) (score_of p t) = true
  <-> (k * Z.of_nat t <= 100 * Z.of_nat p)%Z.
Proof.
  intros Ht. rewrite Qle_bool_iff. unfold score_of.
  destruct (Nat.ltb_spec 0 t) as [Hpos|Hle]; [|lia].
  assert (Htq : 0 < inject_Z (Z.of_nat t)).
  { change 0 with (inject_Z 0). rewrite <- Zlt_Qlt. lia. }
  assert (E : inject_Z (Z.of_nat p) / inject_Z (Z.of_nat t) * 100
              == inject_Z (100 * Z.of_nat p) / inject_Z (Z.of_nat t)).
  { rewrite inject_Z_mult. unfold Qdiv. change (inject_Z 100) with 100. ring. }
  rewrite E. split.
  - intros H. apply (Qmult_le_compat_r _ _ (inject_Z (Z.of_nat t))) in H;
      [|apply Qlt_le_weak; exact Htq].
    unfold Qdiv in H. rewrite <- Qmult_assoc, (Qmult_comm (/ _)), Qmult_inv_r, Qmult_1_r in H.
    + rewrite <- inject_Z_mult in H. rewrite Zle_Qle. exact H.
    + intros Hz. rewrite Hz in Htq. discriminate.
  - intros H. apply Qle_shift_div_l; [exact Htq|].
    rewrite <- inject_Z_mult. rewrite <- Zle_Qle. exact H.
Qed.

Lemma score_of_bounds (p t : nat) :
  (p <= t)%nat -> 0 <= score_of p t /\ score_of p t <= 100.
Proof.
  intros Hpt. destruct (Nat.eq_dec t 0%nat) as [->|Ht].
  - cbn. split; discriminate.
  - split.
    + apply Qle_bool_iff. change 0 with (inject_Z 0).
      apply (score_of_ge 0 p t Ht). lia.
    + unfold score_of. destruct (Nat.ltb_spec 0 t) as [Hpos|Hle]; [|lia].
      assert (Htq : 0 < inject_Z (Z.of_nat t)).
      { change 0 with (inject_Z 0). rewrite <- Zlt_Qlt. lia. }
      rewrite <- (Qmult_1_l 100) at 2. apply Qmult_le_compat_r; [|discriminate].
      apply Qle_shift_div_r; [exact Htq|].
      rewrite Qmult_1_l, <- Zle_Qle. lia.
Qed.


(** X16.  The exit status does not depend on the rounding of the score:
    for every total up to 200 and every count of passes up to the total,
    the status computed from the binary64 score
    [total_passed / total_tests * 100] is the status computed from the
    exact score.  The scores themselves may differ in the last place, as
    for 29 passes out of 100. *)
Theorem binary64_exit_status_agrees (p t : nat) :
  (p <= t)%nat -> (t <= 200)%nat ->
  exit_code_binary64 (score_binary64 p t) = exit_code_of (score_of p t).
Proof. exact (exit_codes_agree_upto_spec 200 p t exit_codes_agree_upto_200). Qed.

Example binary64_score_is_rounded :
  score_binary64 29 100 = PyFloat 28.999999999999996
  /\ (score_of 29 100 == 29)%Q
  /\ score_binary64 9 10 = PyFloat 90
  /\ score_binary64 7 10 = PyFloat 70.
Proof. repeat split; vm_compute; reflexivity. Qed.

End ScoreArithmetic.

(** ** The report of [validate_vectors.py] *)

Section RunnerProperties.
Import TestRunner.
Context {St : Type}.

#[local] Arguments tally : simpl never.

Lemma counted_le_1 (v : verdict) : counted v <= 1.
Proof. destruct v; cbn; lia. Qed.

Lemma tally_le_length (ds : list detail) : tally ds <= length ds.
Proof.
  induction ds as [|d ds IH]; [unfold tally; cbn; lia|].
  change (tally (d :: ds)) with (counted (status d) + tally ds).
  pose proof (counted_le_1 (status d)). cbn [length]. lia.
Qed.

Lemma init_results_consistent : report_consistent init_results.
Proof. repeat split. Qed.

(** X1.  In whatever way a run of [validate_vectors.py] ends (results
    returned, SDK not importable, or an exception on the way), the counters
    of every category of [self.results] agree with its details: [total] is
    the number of details and [passed] the number of details whose status
    is [PASS] or [WARN]. *)
Theorem runner_report_consistent (load : result (sdk_module St)) (fx : fixtures) (s : St) :
  report_consistent (harness (snd (run_validation load fx (initial_world s)))).
Proof.
  destruct load as [sdk|e]; cbn [run_validation]; [|apply init_results_consistent].
  destruct (run_categories_reported sdk fx (initial_world s))
    as (r' & Hrep & Hjc & Hfo & Hec).
  apply reported_consistent in Hrep; [|apply init_results_consistent].
  unfold report_consistent in *. rewrite Hjc, Hfo, Hec. exact Hrep.
Qed.

(** X2.  A run of [validate_vectors.py] that returns its results has counted
    one test per loaded vector, three fusion tests and two edge-case tests:
    the overall total is the number of vectors plus five, so it is never
    zero, and the overall passed count never exceeds it. *)
Theorem runner_total_counts (sdk : sdk_module St) (fx : fixtures) (s : St)
    (r : results) (w' : world St results) :
  run_validation (Ok sdk) fx (initial_world s) = (Ok (RunResults r), w') ->
  exists tv o,
    load_test_vectors fx = Ok tv
    /\ overall r = Some o
    /\ total (judgment_creation r) = length (loaded_vectors tv)
    /\ total (fusion_operators r) = 3
    /\ total (edge_cases r) = 2
    /\ overall_total o = length (loaded_vectors tv) + 5
    /\ overall_passed o <= overall_total o.
Proof.
  intros Hrun. cbn [run_validation] in Hrun.
  destruct (run_categories_overall sdk fx _ _ _ Hrun) as [_ Hov].
  destruct (run_categories_shape sdk fx _ _ _ Hrun)
    as (tv & ds & v1 & m1 & v2 & m2 & v3 & m3 & u1 & n1 & u2 & n2
        & Hload & Hnames & Hjc & Hfo & Hec & _).
  exists tv. eexists. split; [exact Hload|]. split; [exact Hov|].
  rewrite Hjc, Hfo, Hec. cbn.
  pose proof (tally_le_length ds) as Hds.
  assert (Hlen : length ds = length (loaded_vectors tv)).
  { rewrite <- (length_map test ds), Hnames. apply length_map. }
  pose proof (counted_le_1 v1). pose proof (counted_le_1 v2).
  pose proof (counted_le_1 v3). pose proof (counted_le_1 u1).
  pose proof (counted_le_1 u2).
  repeat split; lia.
Qed.

(** X3.  The score of a run of [validate_vectors.py] that returns its
    results lies between 0 and 100. *)
Theorem runner_score_in_range (sdk : sdk_module St) (fx : fixtures) (s : St)
    (r : results) (w' : world St results) :
  run_validation (Ok sdk) fx (initial_world s) = (Ok (RunResults r), w') ->
  exists o, overall r = Some o /\ (0 <= score o /\ score o <= 100)%Q.
Proof.
  intros Hrun. cbn [run_validation] in Hrun.
  destruct (run_categories_overall sdk fx _ _ _ Hrun) as [_ Hov].
  destruct (run_categories_shape sdk fx _ _ _ Hrun)
    as (tv & ds & v1 & m1 & v2 & m2 & v3 & m3 & u1 & n1 & u2 & n2
        & Hload & Hnames & Hjc & Hfo & Hec & _).
  eexists. split; [exact Hov|]. cbn [score].
  apply score_of_bounds. rewrite Hjc, Hfo, Hec. cbn.
  pose proof (tally_le_length ds) as Hds.
  assert (Hlen : length ds = length (loaded_vectors tv)).
  { rewrite <- (length_map test ds), Hnames. apply length_map. }
  pose proof (counted_le_1 v1). pose proof (counted_le_1 v2).
  pose proof (counted_le_1 v3). pose proof (counted_le_1 u1).
  pose proof (counted_le_1 u2).
  lia.
Qed.

(** X5.  The layout of the report of a run of [validate_vectors.py] that
    returns its results: the judgment-creation details name the loaded
    vectors in order; the fusion details are exactly the three operators and
    the edge-case details exactly the two probes, in the order of the
    source; and [WARN] occurs in neither of these two categories. *)
Theorem runner_report_layout (sdk : sdk_module St) (fx : fixtures) (s : St)
    (r : results) (w' : world St results) :
  run_validation (Ok sdk) fx (initial_world s) = (Ok (RunResults r), w') ->
  exists tv,
    load_test_vectors fx = Ok tv
    /\ map test (details (judgment_creation r)) = map name (loaded_vectors tv)
    /\ map test (details (fusion_operators r))
       = ["conflict_aware_weighted_average"; "optimistic_fusion"; "pessimistic_fusion"]
    /\ map test (details (edge_cases r))
       = ["single_judgment_fusion"; "zero_weights_fallback"]
    /\ Forall (fun d => status d <> WARN)
         (details (fusion_operators r) ++ details (edge_cases r)).
Proof.
  intros Hrun. cbn [run_validation] in Hrun.
  destruct (run_categories_shape sdk fx _ _ _ Hrun)
    as (tv & ds & v1 & m1 & v2 & m2 & v3 & m3 & u1 & n1 & u2 & n2
        & Hload & Hnames & Hjc & Hfo & Hec & (Hv1 & Hv2 & Hv3 & Hu1 & Hu2) & _).
  exists tv. split; [exact Hload|].
  rewrite Hjc, Hfo, Hec. cbn.
  repeat split; try assumption.
  repeat (constructor; [assumption|]). constructor.
Qed.

(** X6.  Against an SDK whose constructor rejects every sum above one, a
    run of [validate_vectors.py] that returns its results has failed the
    zero-weights probe: the edge-case category has at most one pass out of
    two, and the overall passed count is below the overall total. *)
Theorem rejecting_sdk_never_full_marks (sdk : sdk_module St) (fx : fixtures) (s : St)
    (r : results) (w' : world St results) :
  rejects_excess_sum sdk ->
  run_validation (Ok sdk) fx (initial_world s) = (Ok (RunResults r), w') ->
  exists o,
    overall r = Some o
    /\ passed (edge_cases r) <= 1
    /\ total (edge_cases r) = 2
    /\ overall_passed o < overall_total o.
Proof.
  intros Hrej Hrun. cbn [run_validation] in Hrun.
  destruct (run_categories_overall sdk fx _ _ _ Hrun) as [_ Hov].
  destruct (run_categories_shape sdk fx _ _ _ Hrun)
    as (tv & ds & v1 & m1 & v2 & m2 & v3 & m3 & u1 & n1 & u2 & n2
        & Hload & Hnames & Hjc & Hfo & Hec & _ & Hfail).
  rewrite (Hfail Hrej) in Hec.
  eexists. split; [exact Hov|].
  rewrite Hjc, Hfo, Hec. cbn.
  pose proof (tally_le_length ds) as Hds.
  assert (Hlen : length ds = length (loaded_vectors tv)).
  { rewrite <- (length_map test ds), Hnames. apply length_map. }
  pose proof (counted_le_1 v1). pose proof (counted_le_1 v2).
  pose proof (counted_le_1 v3). pose proof (counted_le_1 u1).
  repeat split; lia.
Qed.

End RunnerProperties.

(** ** The categories of [check_conformance.py] *)

Section CheckerCategories.
Import Validator.
Context {St : Type} (sdk : sdk_module St).

(** X7.  [validate_fusion_operators] of [check_conformance.py] returns for
    every SDK, whatever the SDK raises: it reports [total = 3], prints
    exactly one verdict line per operator, in the order of the source and
    never a [WARN], and [passed] is the number of [PASS] lines. *)
Theorem checker_fusion_report (w : world St console) :
  exists p w' v1 n1 v2 n2 v3 n3,
    validate_fusion_operators sdk w = (Ok (p, 3), w')
    /\ stdout (harness w') =
         (stdout (harness w) ++
            [mk_line v1 "Conflict-aware weighted average" n1;
             mk_line v2 "Optimistic fusion" n2;
             mk_line v3 "Pessimistic fusion" n3])%list
    /\ p = counted v1 + counted v2 + counted v3
    /\ v1 <> WARN /\ v2 <> WARN /\ v3 <> WARN.
Proof.
  unfold validate_fusion_operators, check_result, on_error, enter, assign_judgments,
    read_judgments, return_counts, print, incr_passed, add_total, set_locals.
  run.
  repeat lookup_step.
  all: match goal with
       | |- context [(Ok (?p, 3), mk_world ?s (mk_console
                       (((?out ++ [mk_line ?v1 _ ?n1]) ++ [mk_line ?v2 _ ?n2])
                          ++ [mk_line ?v3 _ ?n3]) ?f))] =>
           exists p, (mk_world s (mk_console
                        (((out ++ [mk_line v1 "Conflict-aware weighted average" n1])
                            ++ [mk_line v2 "Optimistic fusion" n2])
                           ++ [mk_line v3 "Pessimistic fusion" n3]) f)),
             v1, n1, v2, n2, v3, n3
       end.
  all: cbn; rewrite <- !app_assoc; cbn.
  all: repeat split; discriminate.
Qed.

(** Every path through [validate_provenance_chain] returns, with at most
    two passes and a total of two, or of three with at most one pass. *)
Lemma checker_provenance_returns (w : world St console) :
  exists p t w',
    validate_provenance_chain sdk w = (Ok (p, t), w')
    /\ p <= 2 /\ (t = 2 \/ (t = 3 /\ p <= 1)).
Proof.
  unfold validate_provenance_chain, enter, return_counts, print, incr_passed, add_total,
    set_locals.
  run. step.
  2:{ eexists _, _, _. split; [reflexivity|lia]. }
  match goal with
  | |- context [attr_provenance_chain ?j] =>
      destruct (attr_provenance_chain j) as [chain|?]; cbn
  end.
  2:{ eexists _, _, _. split; [reflexivity|lia]. }
  destruct (chain_len chain) as [n|?]; cbn.
  2:{ eexists _, _, _. split; [reflexivity|lia]. }
  destruct (n =? 1)%nat; cbn;
    (destruct (chain_append chain) as [[]|e]; cbn;
     [|destruct (is_AttributeError_or_TypeError e); cbn]).
  all: eexists _, _, _; split; [reflexivity|lia].
Qed.

(** When the judgment cannot be constructed, or its chain cannot be read or
    measured, both probes are written off with a single [FAIL] line. *)
Lemma provenance_prelude_raises (w : world St console) :
  (forall e s,
     NeutrosophicJudgment sdk (PyFloat 0.8) (PyFloat 0.2) (PyFloat 0.0) (chain_literal "test")
       (sdk_state w) = (Raise e, s) ->
     validate_provenance_chain sdk w =
       (Ok (0, 2),
        provenance_report s (harness w)
          [mk_line FAIL "Provenance chain tests" (" - Error: " ++ str e)] 0 2))
  /\ (forall j s e,
        NeutrosophicJudgment sdk (PyFloat 0.8) (PyFloat 0.2) (PyFloat 0.0) (chain_literal "test")
          (sdk_state w) = (Ok j, s) ->
        attr_provenance_chain j = Raise e
        \/ (exists chain, attr_provenance_chain j = Ok chain /\ chain_len chain = Raise e) ->
        validate_provenance_chain sdk w =
          (Ok (0, 2),
           provenance_report s (harness w)
             [mk_line FAIL "Provenance chain tests" (" - Error: " ++ str e)] 0 2)).
Proof.
  unfold validate_provenance_chain, enter, return_counts, print, incr_passed, add_total,
    set_locals, provenance_report.
  split.
  - intros e s Hcall. run. rewrite Hcall. reflexivity.
  - intros j s e Hcall [Hchain|(chain & Hchain & Hlen)]; run; rewrite Hcall; cbn;
      rewrite Hchain; cbn; [|rewrite Hlen]; reflexivity.
Qed.

(** X8.  [validate_provenance_chain] returns for every SDK.  It reports at
    most two passes and a total of 2, or a total of 3 with at most one pass.
    When the judgment cannot be constructed, or its [provenance_chain]
    cannot be read, or [len] of it raises, the result is 0 passed out of 2
    and one [FAIL] line carries the message of the exception. *)
Theorem checker_provenance_counts (w : world St console) :
  (exists p t w',
     validate_provenance_chain sdk w = (Ok (p, t), w')
     /\ p <= 2 /\ (t = 2 \/ (t = 3 /\ p <= 1)))
  /\ (forall e s,
        NeutrosophicJudgment sdk (PyFloat 0.8) (PyFloat 0.2) (PyFloat 0.0) (chain_literal "test")
          (sdk_state w) = (Raise e, s) ->
        validate_provenance_chain sdk w =
          (Ok (0, 2),
           provenance_report s (harness w)
             [mk_line FAIL "Provenance chain tests" (" - Error: " ++ str e)] 0 2))
  /\ (forall j s e,
        NeutrosophicJudgment sdk (PyFloat 0.8) (PyFloat 0.2) (PyFloat 0.0) (chain_literal "test")
          (sdk_state w) = (Ok j, s) ->
        attr_provenance_chain j = Raise e
        \/ (exists chain, attr_provenance_chain j = Ok chain /\ chain_len chain = Raise e) ->
        validate_provenance_chain sdk w =
          (Ok (0, 2),
           provenance_report s (harness w)
             [mk_line FAIL "Provenance chain tests" (" - Error: " ++ str e)] 0 2)).
Proof.
  split; [apply checker_provenance_returns|apply provenance_prelude_raises].
Qed.

End CheckerCategories.

(** ** The two harnesses side by side *)

Section SideBySide.
Context {St : Type} (sdk : sdk_module St).

#[local] Arguments tally : simpl never.

Lemma keys_present_cons (tc : test_case) (vs : list test_case) :
  keys_present (tc :: vs) = true ->
  (forall outcome, lacks_needed_key tc outcome = false) /\ keys_present vs = true.
Proof.
  unfold keys_present. cbn [forallb]. rewrite andb_true_iff. intros [Htc Hvs].
  split; [|exact Hvs]. intros outcome. unfold lacks_needed_key.
  destruct outcome; [reflexivity|].
  destruct (expected_valid tc); [reflexivity|].
  destruct (expected_error tc); [reflexivity|discriminate].
Qed.

Lemma tally_cons (d : TestRunner.detail) (ds : list TestRunner.detail) :
  tally (d :: ds) = counted (TestRunner.status d) + tally ds.
Proof. reflexivity. Qed.

(** The two loops in lock step.  Started on the same SDK state, with vectors
    that all carry the key the checker subscripts, both complete; they leave
    the SDK in the same state and have produced the same verdicts for the
    same names, in the same order. *)
Lemma creation_loops_agree (vs : list test_case) :
  keys_present vs = true ->
  forall (w1 : world St TestRunner.results) (w2 : world St Validator.console),
    sdk_state w1 = sdk_state w2 ->
    exists s ds ls,
      TestRunner.validate_judgment_creation sdk vs w1 =
        (Ok tt, mk_world s
           (TestRunner.mk_results
              (TestRunner.mk_category
                 (TestRunner.passed (TestRunner.judgment_creation (harness w1)) + tally ds)
                 (TestRunner.total (TestRunner.judgment_creation (harness w1)) + length vs)
                 (TestRunner.details (TestRunner.judgment_creation (harness w1)) ++ ds))
              (TestRunner.fusion_operators (harness w1))
              (TestRunner.edge_cases (harness w1))
              (TestRunner.overall (harness w1))))
      /\ for_each vs (Validator.judgment_creation_probe sdk) w2 =
           (Ok tt, mk_world s
              (Validator.mk_console
                 (Validator.stdout (harness w2) ++ ls)
                 (Validator.mk_frame
                    (Validator.passed (Validator.locals (harness w2)) + tally ds)
                    (Validator.total (Validator.locals (harness w2)) + length vs)
                    (Validator.judgments (Validator.locals (harness w2))))))
      /\ map TestRunner.test ds = map name vs
      /\ map Validator.subject ls = map name vs
      /\ map Validator.glyph ls = map TestRunner.status ds.
Proof.
  unfold TestRunner.validate_judgment_creation.
  induction vs as [|tc vs IH]; intros Hkeys w1 w2 Hs.
  - exists (sdk_state w1), [], []. cbn. unfold ret.
    destruct w1 as [s [[p t d] fo ec ov]], w2 as [s' [out [p' t' js]]]; cbn in *.
    subst s'. change (tally []) with 0.
    rewrite !Nat.add_0_r, !app_nil_r. repeat split.
  - destruct (keys_present_cons tc vs Hkeys) as [Hkey Hrest].
    cbn [for_each]. unfold mbind, M_bind, bind.
    destruct (NeutrosophicJudgment sdk (input_T (input tc)) (input_I (input tc))
      (input_F (input tc)) (input_provenance_chain (input tc)) (sdk_state w1))
      as [outcome s1] eqn:Hcall1.
    pose proof Hcall1 as Hcall2. rewrite Hs in Hcall2.
    rewrite (runner_creation_probe sdk tc w1 outcome s1 Hcall1).
    rewrite (checker_creation_probe sdk tc w2 outcome s1 Hcall2), Hkey.
    destruct (IH Hrest
                (mk_world s1 (recorded TestRunner.JudgmentCreation (name tc)
                   (creation_verdict tc outcome) (creation_message tc outcome) (harness w1)))
                (mk_world s1 (printed (name tc) (creation_verdict tc outcome)
                   (creation_note tc outcome) (harness w2)))
                eq_refl)
      as (s & ds & ls & Hrun1 & Hrun2 & Hnames & Hsubj & Hglyph).
    unfold mbind, M_bind in Hrun1, Hrun2.
    exists s, (TestRunner.mk_detail (name tc) (creation_verdict tc outcome)
                 (creation_message tc outcome) :: ds),
           (Validator.mk_line (creation_verdict tc outcome) (name tc)
              (creation_note tc outcome) :: ls).
    rewrite Hrun1, Hrun2. unfold recorded, printed. cbn.
    rewrite <- !app_assoc, tally_cons. cbn.
    assert (Hp : forall a b c, (a + b + c = a + (b + c))%nat) by (intros; lia).
    assert (Ht : forall a n, (a + 1 + n = a + S n)%nat) by (intros; lia).
    rewrite !Ht, !Hp.
    repeat split; congruence.
Qed.

(** X9.  The two harnesses agree on the judgment-creation category.  When
    every vector that is expected invalid carries an ['expected_error'] key,
    and both start on the same SDK state, [check_conformance.py] returns
    [(passed, total)] with [total] the number of vectors, and
    [validate_vectors.py] adds the same [passed] and [total] to its
    category; both report the same verdict for each vector, in the order of
    the vectors, and leave the SDK in the same state. *)
Theorem harnesses_agree_on_creation (vs : list test_case) (fv : option (list fusion_case))
    (w1 : world St TestRunner.results) (w2 : world St Validator.console) :
  keys_present vs = true ->
  sdk_state w1 = sdk_state w2 ->
  exists p w1' w2' ds ls,
    Validator.validate_judgment_creation sdk (Validator.mk_test_vectors (Some vs) fv) w2
      = (Ok (p, length vs), w2')
    /\ TestRunner.validate_judgment_creation sdk vs w1 = (Ok tt, w1')
    /\ sdk_state w1' = sdk_state w2'
    /\ TestRunner.passed (TestRunner.judgment_creation (harness w1'))
       = TestRunner.passed (TestRunner.judgment_creation (harness w1)) + p
    /\ TestRunner.total (TestRunner.judgment_creation (harness w1'))
       = TestRunner.total (TestRunner.judgment_creation (harness w1)) + length vs
    /\ TestRunner.details (TestRunner.judgment_creation (harness w1'))
       = (TestRunner.details (TestRunner.judgment_creation (harness w1)) ++ ds)%list
    /\ Validator.stdout (harness w2') = (Validator.stdout (harness w2) ++ ls)%list
    /\ map TestRunner.test ds = map name vs
    /\ map Validator.subject ls = map name vs
    /\ map Validator.glyph ls = map TestRunner.status ds.
Proof.
  intros Hkeys Hs.
  destruct (creation_loops_agree vs Hkeys w1
              (mk_world (sdk_state w2)
                 (Validator.mk_console (Validator.stdout (harness w2))
                    (Validator.mk_frame 0 0 None))) Hs)
    as (s & ds & ls & Hrun1 & Hrun2 & Hnames & Hsubj & Hglyph).
  exists (tally ds). eexists _, _, ds, ls.
  split.
  { unfold Validator.validate_judgment_creation, Validator.enter, Validator.return_counts,
      Validator.set_locals.
    unfold mbind, M_bind, bind, update, modify, current, ret. cbn.
    rewrite Hrun2. cbn. reflexivity. }
  split; [exact Hrun1|]. cbn. repeat split; assumption.
Qed.

(** X10.  The two harnesses agree on the fusion category of an SDK that
    exposes the same operators under [sdk.fuse.X], where
    [validate_vectors.py] looks for them, and under [sdk.X], where
    [check_conformance.py] does.  Started on the same SDK state, they make
    the same calls: [check_conformance.py] always returns [(passed, 3)];
    when the two canonical judgments can be constructed,
    [validate_vectors.py] adds the same [passed] and 3 tests to its
    category; when a construction raises, [validate_vectors.py] raises with
    nothing recorded and [check_conformance.py] reports 0 passed.  Both
    leave the SDK in the same state. *)
Theorem harnesses_agree_on_fusion (s : St) (res : TestRunner.results)
    (c : Validator.console) :
  same_operators sdk ->
  exists p w2',
    Validator.validate_fusion_operators sdk (mk_world s c) = (Ok (p, 3), w2')
    /\ ((exists w1',
           TestRunner.validate_fusion_operators sdk (mk_world s res) = (Ok tt, w1')
           /\ sdk_state w1' = sdk_state w2'
           /\ TestRunner.passed (TestRunner.fusion_operators (harness w1'))
              = TestRunner.passed (TestRunner.fusion_operators res) + p
           /\ TestRunner.total (TestRunner.fusion_operators (harness w1'))
              = TestRunner.total (TestRunner.fusion_operators res) + 3)
        \/ (exists e w1',
              TestRunner.validate_fusion_operators sdk (mk_world s res) = (Raise e, w1')
              /\ sdk_state w1' = sdk_state w2'
              /\ harness w1' = res
              /\ p = 0)).
Proof.
  intros (Hcawa & Hopt & Hpes).
  unfold Validator.validate_fusion_operators, Validator.check_result, Validator.on_error,
    Validator.enter, Validator.assign_judgments, Validator.read_judgments,
    Validator.return_counts, Validator.print, Validator.incr_passed, Validator.add_total,
    Validator.set_locals.
  unfold TestRunner.validate_fusion_operators, TestRunner.fusion_probe,
    TestRunner.incr_total, TestRunner.incr_passed, TestRunner.append_detail,
    TestRunner._is_valid_judgment.
  rewrite Hcawa, Hopt, Hpes.
  run.
  step; [step|].
  2,3: eexists _, _; split; [reflexivity|];
       right; eexists _, _; repeat split; reflexivity.
  repeat step.
  all: eexists _, _; split; [reflexivity|].
  all: left; eexists; split; [reflexivity|]; cbn; repeat split; lia.
Qed.

End SideBySide.

(** ** Complete runs of [check_conformance.py] *)

Section CheckerRuns.
Import Validator.
Context {St : Type} (sdk : sdk_module St).

Lemma glyph_count_le_length (ls : list line) :
  list_sum (map (fun l => counted (glyph l)) ls) <= length ls.
Proof.
  induction ls as [|l ls IH]; cbn; [lia|].
  pose proof (counted_le_1 (glyph l)). unfold list_sum in IH. lia.
Qed.

(** X11.  A run of [check_conformance.py] that returns its results has
    counted one test per vector, three fusion tests and two or three
    provenance tests; no category has more passes than tests, and the score
    lies between 0 and 100. *)
Theorem checker_run_counts (tv : test_vectors) (w w' : world St console) (r : results) :
  run_validation (Ok sdk) tv w = (Ok (RunResults r), w') ->
  cat_total (judgment_creation r) = length (get_judgments tv)
  /\ cat_passed (judgment_creation r) <= cat_total (judgment_creation r)
  /\ cat_total (fusion_operators r) = 3
  /\ cat_passed (fusion_operators r) <= 3
  /\ (cat_total (provenance_chain r) = 2 \/ cat_total (provenance_chain r) = 3)
  /\ cat_passed (provenance_chain r) <= 2
  /\ overall_passed (overall r) <= overall_total (overall r)
  /\ 5 <= overall_total (overall r)
  /\ (0 <= score (overall r) /\ score (overall r) <= 100)%Q.
Proof.
  cbn [run_validation]. unfold run_categories, bind, ret.
  destruct (checker_creation_order sdk tv w) as (r1 & w1 & ls & -> & _ & _ & Hok).
  destruct r1 as [jc|e1]; [|discriminate].
  destruct (Hok jc eq_refl) as (Hnames & ->).
  destruct (checker_fusion_returns sdk w1) as (pf & w2 & -> & Hpf).
  destruct (checker_provenance_returns sdk w2) as (pp & tp & w3 & -> & Hpp & Htp).
  intros [= <- <-]. cbn.
  pose proof (glyph_count_le_length ls) as Hls.
  assert (Hlen : length ls = length (get_judgments tv)).
  { rewrite <- (length_map subject ls), Hnames. apply length_map. }
  assert (Hle : list_sum (map (fun l => counted (glyph l)) ls) + pf + pp
                <= length (get_judgments tv) + 3 + tp) by lia.
  repeat split; try lia; apply score_of_bounds; exact Hle.
Qed.

End CheckerRuns.

(** ** Loading, once more *)

Section Loading.
Context {St : Type}.

(** X12.  The content of [fusion-tests.json] has no effect: two directories
    with the same [judgments.json] and with fusion files that both load (or
    are absent) give the same run, in both harnesses. *)
Theorem fusion_fixture_is_ignored (load : result (sdk_module St))
    (jf : fixture_file test_case) (fu1 fu2 : fixture_file fusion_case)
    (o1 o2 : option (list fusion_case)) :
  load_if_exists fu1 = Ok o1 ->
  load_if_exists fu2 = Ok o2 ->
  (forall w, TestRunner.main load (mk_fixtures jf fu1) w
             = TestRunner.main load (mk_fixtures jf fu2) w)
  /\ (forall w, Validator.main load (mk_fixtures jf fu1) w
                = Validator.main load (mk_fixtures jf fu2) w).
Proof.
  intros H1 H2. split; intros w.
  - unfold TestRunner.main, TestRunner.run_validation, bind.
    destruct load as [m|e]; [|reflexivity].
    unfold TestRunner.run_categories, TestRunner.load_test_vectors, bind, eval. cbn.
    rewrite H1, H2. destruct (load_if_exists jf); reflexivity.
  - unfold Validator.main, Validator._load_test_vectors, bind, eval. cbn.
    rewrite H1, H2. destruct (load_if_exists jf) as [js|e]; cbn; [|reflexivity].
    destruct load as [m|e]; reflexivity.
Qed.

(** X13.  A [fusion-tests.json] that exists and cannot be loaded ends the
    run like a broken [judgments.json], although nothing reads its content:
    with a loadable [judgments.json], the loader's exception leaves [main]
    and the world is untouched. *)
Theorem broken_fusion_fixture_aborts (sdk : sdk_module St)
    (jf : fixture_file test_case) (fu : fixture_file fusion_case)
    (o : option (list test_case)) (e : exn) :
  load_if_exists jf = Ok o ->
  load_failure fu e ->
  (forall w, TestRunner.main (Ok sdk) (mk_fixtures jf fu) w = (Raise e, w))
  /\ (forall (load : result (sdk_module St)) w,
        Validator.main load (mk_fixtures jf fu) w = (Raise e, w)).
Proof.
  intros Hj Hf. apply load_if_exists_failure in Hf. split.
  - intros w. unfold TestRunner.main, TestRunner.run_validation, bind.
    unfold TestRunner.run_categories, TestRunner.load_test_vectors, bind, eval. cbn.
    rewrite Hj, Hf. reflexivity.
  - intros load w. unfold Validator.main, Validator._load_test_vectors, bind, eval. cbn.
    rewrite Hj, Hf. reflexivity.
Qed.

(** X14.  When the SDK module cannot be imported, [validate_vectors.py]
    exits with status 1 without reading the fixtures, so even a broken
    fixture goes unnoticed; [check_conformance.py] has loaded the fixtures
    before, so it exits with status 1 only if they load and otherwise ends
    with the loader's exception.  No probe runs in either case. *)
Theorem sdk_import_failure (e : exn) (fx : fixtures) :
  (forall w : world St TestRunner.results,
     TestRunner.main (Raise e) fx w = (Ok 1%Z, w))
  /\ (forall w : world St Validator.console,
        Validator.main (Raise e) fx w =
          (match Validator._load_test_vectors fx with
           | Ok _ => Ok 1%Z
           | Raise e' => Raise e'
           end, w)).
Proof.
  split; intros w; [reflexivity|].
  unfold Validator.main, bind, eval.
  destruct (Validator._load_test_vectors fx); reflexivity.
Qed.

End Loading.

(** ** The calls a harness makes *)

Section Calls.
Import Samples.


End Calls.

(** ** Vectors in the order of the file, over a whole run *)

Section RunOrder.
Context {St : Type} (sdk : sdk_module St).






End RunOrder.

Section FixtureOrder.
Import Samples.










End FixtureOrder.

(** ** The further properties at concrete inputs *)

Section FurtherRuns.
Import Samples.


Lemma runner_total_counts_witness :
  exists r w',
    TestRunner.run_validation (Ok strict_sdk) (fixtures_of [basic_valid; sum_exceeds_one])
      (TestRunner.initial_world tt) = (Ok (TestRunner.RunResults r), w')
    /\ exists tv o,
         TestRunner.load_test_vectors (fixtures_of [basic_valid; sum_exceeds_one]) = Ok tv
         /\ TestRunner.overall r = Some o
         /\ TestRunner.total (TestRunner.judgment_creation r) = length (loaded_vectors tv)
         /\ TestRunner.total (TestRunner.fusion_operators r) = 3
         /\ TestRunner.total (TestRunner.edge_cases r) = 2
         /\ TestRunner.overall_total o = length (loaded_vectors tv) + 5
         /\ TestRunner.overall_passed o <= TestRunner.overall_total o.
Proof.
  eexists _, _. split; [vm_compute; reflexivity|].
  eapply (runner_total_counts strict_sdk (fixtures_of [basic_valid; sum_exceeds_one]) tt).
  vm_compute. reflexivity.
Defined.

Lemma runner_score_in_range_witness :
  exists r w',
    TestRunner.run_validation (Ok strict_sdk) (fixtures_of [basic_valid; sum_exceeds_one])
      (TestRunner.initial_world tt) = (Ok (TestRunner.RunResults r), w')
    /\ exists o, TestRunner.overall r = Some o
                 /\ (0 <= TestRunner.score o /\ TestRunner.score o <= 100)%Q.
Proof.
  eexists _, _. split; [vm_compute; reflexivity|].
  eapply (runner_score_in_range strict_sdk (fixtures_of [basic_valid; sum_exceeds_one]) tt).
  vm_compute. reflexivity.
Defined.

Lemma runner_report_layout_witness :
  exists r w',
    TestRunner.run_validation (Ok strict_sdk) (fixtures_of [basic_valid; sum_exceeds_one])
      (TestRunner.initial_world tt) = (Ok (TestRunner.RunResults r), w')
    /\ exists tv,
         TestRunner.load_test_vectors (fixtures_of [basic_valid; sum_exceeds_one]) = Ok tv
         /\ map TestRunner.test (TestRunner.details (TestRunner.judgment_creation r))
            = map name (loaded_vectors tv)
         /\ map TestRunner.test (TestRunner.details (TestRunner.fusion_operators r))
            = ["conflict_aware_weighted_average"; "optimistic_fusion"; "pessimistic_fusion"]
         /\ map TestRunner.test (TestRunner.details (TestRunner.edge_cases r))
            = ["single_judgment_fusion"; "zero_weights_fallback"]
         /\ Forall (fun d => TestRunner.status d <> WARN)
              (TestRunner.details (TestRunner.fusion_operators r)
               ++ TestRunner.details (TestRunner.edge_cases r)).
Proof.
  eexists _, _. split; [vm_compute; reflexivity|].
  eapply (runner_report_layout strict_sdk (fixtures_of [basic_valid; sum_exceeds_one]) tt).
  vm_compute. reflexivity.
Defined.

Lemma rejecting_sdk_never_full_marks_witness :
  exists r w',
    TestRunner.run_validation (Ok strict_sdk) (fixtures_of [basic_valid; sum_exceeds_one])
      (TestRunner.initial_world tt) = (Ok (TestRunner.RunResults r), w')
    /\ exists o,
         TestRunner.overall r = Some o
         /\ TestRunner.passed (TestRunner.edge_cases r) <= 1
         /\ TestRunner.total (TestRunner.edge_cases r) = 2
         /\ TestRunner.overall_passed o < TestRunner.overall_total o.
Proof.
  eexists _, _. split; [vm_compute; reflexivity|].
  eapply (rejecting_sdk_never_full_marks strict_sdk
            (fixtures_of [basic_valid; sum_exceeds_one]) tt).
  - exact strict_sdk_rejects_excess_sum.
  - vm_compute. reflexivity.
Defined.

Lemma checker_provenance_counts_witness :
  Validator.validate_provenance_chain broken_sdk (Validator.initial_world tt) =
    (Ok (0, 2),
     provenance_report tt (harness (Validator.initial_world tt))
       [Validator.mk_line FAIL "Provenance chain tests"
          (" - Error: " ++ str broken_constructor)] 0 2).
Proof.
  apply (proj1 (proj2 (checker_provenance_counts broken_sdk (Validator.initial_world tt)))).
  reflexivity.
Defined.

Lemma harnesses_agree_on_creation_witness :
  exists p w1' w2' ds ls,
    Validator.validate_judgment_creation strict_sdk
      (Validator.mk_test_vectors (Some [basic_valid; sum_exceeds_one]) None)
      (Validator.initial_world tt)
      = (Ok (p, length [basic_valid; sum_exceeds_one]), w2')
    /\ TestRunner.validate_judgment_creation strict_sdk [basic_valid; sum_exceeds_one]
         (TestRunner.initial_world tt) = (Ok tt, w1')
    /\ sdk_state w1' = sdk_state w2'
    /\ TestRunner.passed (TestRunner.judgment_creation (harness w1'))
       = TestRunner.passed
           (TestRunner.judgment_creation (harness (TestRunner.initial_world tt))) + p
    /\ TestRunner.total (TestRunner.judgment_creation (harness w1'))
       = TestRunner.total
           (TestRunner.judgment_creation (harness (TestRunner.initial_world tt)))
         + length [basic_valid; sum_exceeds_one]
    /\ TestRunner.details (TestRunner.judgment_creation (harness w1'))
       = (TestRunner.details
            (TestRunner.judgment_creation (harness (TestRunner.initial_world tt)))
          ++ ds)%list
    /\ Validator.stdout (harness w2')
       = (Validator.stdout (harness (Validator.initial_world tt)) ++ ls)%list
    /\ map TestRunner.test ds = map name [basic_valid; sum_exceeds_one]
    /\ map Validator.subject ls = map name [basic_valid; sum_exceeds_one]
    /\ map Validator.glyph ls = map TestRunner.status ds.
Proof.
  apply (harnesses_agree_on_creation strict_sdk [basic_valid; sum_exceeds_one] None
           (TestRunner.initial_world tt) (Validator.initial_world tt));
    reflexivity.
Defined.

Lemma checker_run_counts_witness :
  exists r w',
    Validator.run_validation (Ok strict_sdk)
      (Validator.mk_test_vectors (Some [basic_valid; sum_exceeds_one]) None)
      (Validator.initial_world tt) = (Ok (Validator.RunResults r), w')
    /\ Validator.cat_total (Validator.judgment_creation r)
       = length (Validator.get_judgments
                   (Validator.mk_test_vectors (Some [basic_valid; sum_exceeds_one]) None))
    /\ Validator.cat_passed (Validator.judgment_creation r)
       <= Validator.cat_total (Validator.judgment_creation r)
    /\ Validator.cat_total (Validator.fusion_operators r) = 3
    /\ Validator.cat_passed (Validator.fusion_operators r) <= 3
    /\ (Validator.cat_total (Validator.provenance_chain r) = 2
        \/ Validator.cat_total (Validator.provenance_chain r) = 3)
    /\ Validator.cat_passed (Validator.provenance_chain r) <= 2
    /\ Validator.overall_passed (Validator.overall r)
       <= Validator.overall_total (Validator.overall r)
    /\ 5 <= Validator.overall_total (Validator.overall r)
    /\ (0 <= Validator.score (Validator.overall r)
        /\ Validator.score (Validator.overall r) <= 100)%Q.
Proof.
  eexists _, _. split; [vm_compute; reflexivity|].
  eapply (checker_run_counts strict_sdk
            (Validator.mk_test_vectors (Some [basic_valid; sum_exceeds_one]) None)
            (Validator.initial_world tt)).
  vm_compute. reflexivity.
Defined.

Lemma fusion_fixture_is_ignored_witness :
  (forall w : world unit TestRunner.results,
     TestRunner.main (Ok strict_sdk) (mk_fixtures no_vectors Absent) w
     = TestRunner.main (Ok strict_sdk)
         (mk_fixtures no_vectors
            (Parsed {[ "test_vectors" := [mk_fusion_case "weighted_two"] ]})) w)
  /\ (forall w : world unit Validator.console,
        Validator.main (Ok strict_sdk) (mk_fixtures no_vectors Absent) w
        = Validator.main (Ok strict_sdk)
            (mk_fixtures no_vectors
               (Parsed {[ "test_vectors" := [mk_fusion_case "weighted_two"] ]})) w).
Proof.
  refine (fusion_fixture_is_ignored (Ok strict_sdk) no_vectors Absent
           (Parsed {[ "test_vectors" := [mk_fusion_case "weighted_two"] ]})
           None (Some [mk_fusion_case "weighted_two"]) eq_refl _).
  vm_compute. reflexivity.
Defined.

Lemma broken_fusion_fixture_aborts_witness :
  (forall w : world unit TestRunner.results,
     TestRunner.main (Ok strict_sdk) (mk_fixtures no_vectors (Malformed "Extra data")) w
     = (Raise (mk_exn JSONDecodeError "Extra data"), w))
  /\ (forall (load : result (sdk_module unit)) (w : world unit Validator.console),
        Validator.main load (mk_fixtures no_vectors (Malformed "Extra data")) w
        = (Raise (mk_exn JSONDecodeError "Extra data"), w)).
Proof.
  refine (broken_fusion_fixture_aborts strict_sdk no_vectors (Malformed "Extra data")
            (Some []) (mk_exn JSONDecodeError "Extra data") _
            (or_introl (ex_intro _ "Extra data" (conj eq_refl eq_refl)))).
  vm_compute. reflexivity.
Defined.

Lemma binary64_exit_status_agrees_witness :
  exit_code_binary64 (score_binary64 29 100) = exit_code_of (score_of 29 100)
  /\ exit_code_binary64 (score_binary64 9 10) = 0%Z
  /\ exit_code_binary64 (score_binary64 7 10) = 1%Z.
Proof.
  split; [|split].
  - apply (binary64_exit_status_agrees 29 100); lia.
  - rewrite (binary64_exit_status_agrees 9 10) by lia. reflexivity.
  - rewrite (binary64_exit_status_agrees 7 10) by lia. reflexivity.
Defined.


(** A second [run_validation] on the same validator: the categories keep
    accumulating (12 passed out of 14), and the sums also take in the
    ['overall'] entry of the first run (6 out of 7), so the new entry is 18
    out of 21. *)
Example second_run_counts_previous_overall :
  let fx := fixtures_of [basic_valid; sum_exceeds_one] in
  let w1 := snd (TestRunner.run_validation (Ok strict_sdk) fx (TestRunner.initial_world tt)) in
  TestRunner.overall (harness w1) = Some (TestRunner.mk_overall 6 7 (score_of 6 7))
  /\ exists r w2,
       TestRunner.run_validation (Ok strict_sdk) fx w1 = (Ok (TestRunner.RunResults r), w2)
       /\ TestRunner.passed (TestRunner.judgment_creation r)
          + TestRunner.passed (TestRunner.fusion_operators r)
          + TestRunner.passed (TestRunner.edge_cases r) = 12
       /\ TestRunner.total (TestRunner.judgment_creation r)
          + TestRunner.total (TestRunner.fusion_operators r)
          + TestRunner.total (TestRunner.edge_cases r) = 14
       /\ TestRunner.overall r = Some (TestRunner.mk_overall 18 21 (score_of 18 21)).
Proof.
  split; [vm_compute; reflexivity|].
  eexists _, _. split; [vm_compute; reflexivity|].
  repeat split; vm_compute; reflexivity.
Qed.


(** A whole run of [check_conformance.py] against the recording SDK: the
    three vectors, one of them twice, then the fixed judgments. *)
Example checker_run_in_file_order :
  sdk_state (snd (Validator.main (Ok recording_sdk)
                    (fixtures_of [basic_valid; basic_valid; sum_exceeds_one])
                    (Validator.initial_world [])))
  = [(PyFloat 0.7, PyFloat 0.2, PyFloat 0.1); (PyFloat 0.7, PyFloat 0.2, PyFloat 0.1);
     (PyFloat 0.6, PyFloat 0.5, PyFloat 0.1);
     (PyFloat 0.8, PyFloat 0.2, PyFloat 0.0); (PyFloat 0.6, PyFloat 0.3, PyFloat 0.1);
     (PyFloat 0.8, PyFloat 0.2, PyFloat 0.0)].
Proof. vm_compute. reflexivity. Qed.

Lemma strict_sdk_same_operators : same_operators strict_sdk.
Proof. repeat split. Qed.

Lemma harnesses_agree_on_fusion_witness :
  exists p w2',
    Validator.validate_fusion_operators strict_sdk (Validator.initial_world tt)
    = (Ok (p, 3), w2')
    /\ ((exists w1',
           TestRunner.validate_fusion_operators strict_sdk (TestRunner.initial_world tt)
           = (Ok tt, w1')
           /\ sdk_state w1' = sdk_state w2'
           /\ TestRunner.passed (TestRunner.fusion_operators (harness w1'))
              = TestRunner.passed (TestRunner.fusion_operators TestRunner.init_results) + p
           /\ TestRunner.total (TestRunner.fusion_operators (harness w1'))
              = TestRunner.total (TestRunner.fusion_operators TestRunner.init_results) + 3)
        \/ (exists e w1',
              TestRunner.validate_fusion_operators strict_sdk (TestRunner.initial_world tt)
              = (Raise e, w1')
              /\ sdk_state w1' = sdk_state w2'
              /\ harness w1' = TestRunner.init_results
              /\ p = 0)).
Proof.
  apply (harnesses_agree_on_fusion strict_sdk tt TestRunner.init_results
           (harness (Validator.initial_world tt))).
  repeat split.
Defined.

(** Without that hypothesis the harnesses part: a conformant SDK that
    exposes its operators under [fuse] only passes the three fusion probes
    of [validate_vectors.py] and fails the three of
    [check_conformance.py]. *)
Example fuse_only_sdk_splits_harnesses :
  TestRunner.fusion_operators
    (harness (snd (TestRunner.validate_fusion_operators fuse_only_sdk
                     (TestRunner.initial_world tt))))
  = TestRunner.mk_category 3 3
      [TestRunner.mk_detail "conflict_aware_weighted_average" PASS "Valid fusion result";
       TestRunner.mk_detail "optimistic_fusion" PASS "Valid fusion result";
       TestRunner.mk_detail "pessimistic_fusion" PASS "Valid fusion result"]
  /\ fst (Validator.validate_fusion_operators fuse_only_sdk (Validator.initial_world tt))
     = Ok (0, 3)
  /\ Validator.stdout
       (harness (snd (Validator.validate_fusion_operators fuse_only_sdk
                        (Validator.initial_world tt))))
     = [Validator.mk_line FAIL "Conflict-aware weighted average"
          " - Error: module 'sdk' has no attribute 'conflict_aware_weighted_average'";
        Validator.mk_line FAIL "Optimistic fusion"
          " - Error: module 'sdk' has no attribute 'optimistic_fusion'";
        Validator.mk_line FAIL "Pessimistic fusion"
          " - Error: module 'sdk' has no attribute 'pessimistic_fusion'"].
Proof. repeat split; vm_compute; reflexivity. Qed.

(** The operator is looked up before the local [judgments] is read: when
    the SDK has neither the class nor the operators, the second and the
    third block report the missing operator, not the unbound local. *)
Example operator_lookup_comes_first :
  Validator.validate_fusion_operators empty_sdk (Validator.initial_world tt)
  = (Ok (0, 3),
     mk_world tt
       (Validator.mk_console
          [Validator.mk_line FAIL "Conflict-aware weighted average"
             " - Error: module 'sdk' has no attribute 'NeutrosophicJudgment'";
           Validator.mk_line FAIL "Optimistic fusion"
             " - Error: module 'sdk' has no attribute 'optimistic_fusion'";
           Validator.mk_line FAIL "Pessimistic fusion"
             " - Error: module 'sdk' has no attribute 'pessimistic_fusion'"]
          (Validator.mk_frame 0 3 None))).
Proof. vm_compute. reflexivity. Qed.

End FurtherRuns.
